(** * Profit Calculator Tool ([Prototype3.py])

    A shallow embedding of the Streamlit script [Prototype3.py] and of the
    part of the workbook library it drives, followed by the properties of
    the recalculation cycle (write, persist, reload, extract, retry,
    fallback) and of the sheet-by-sheet merge of the two workbooks.

    Python objects live in a heap of workbooks addressed by references;
    the script's effects (engine calls, user-interface and log messages)
    are threaded through a state-and-exception monad over a [World]. *)

From Stdlib Require Import ZArith PrimFloat SpecFloat FloatOps.
From stdpp Require Import gmap strings list fin_maps pretty.

(** ** Python values *)

Module Py.

(** What a cell's [value] attribute can hold.  The library keeps a
    formula as a [str] (the formula text); it is tagged here so that
    "text" and "formula text" stay distinguishable. *)
Inductive value : Type :=
| VNone
| VBool (b : bool)
| VInt (z : Z)
| VFloat (x : float)
| VStr (s : string)
| VFormula (text : string).

(** [v is None] *)
Definition is_None (v : value) : bool :=
  match v with VNone => true | _ => false end.

(** [isinstance(v, str)] *)
Definition isinstance_str (v : value) : bool :=
  match v with VStr _ | VFormula _ => true | _ => false end.

(** Truth values of the objects the script tests with [not] / [and] / [or]. *)
Definition truthy_str (s : string) : bool := bool_decide (s ≠ "").
Definition truthy_int (z : Z) : bool := bool_decide (z ≠ 0%Z).
Definition truthy_float (x : float) : bool := negb (PrimFloat.is_zero x).

(** Exceptions the modelled code can raise. *)
Inductive exn : Type :=
| IOError | KeyError | IndexError | ZeroDivisionError | OverflowError.

Inductive res (A : Type) : Type :=
| Ok (a : A)
| Raise (e : exn).
Arguments Ok {A} a.
Arguments Raise {A} e.

(** [float(n)]: correctly rounded, [OverflowError] beyond the double range. *)
Definition float_of_int (n : Z) : res float :=
  let x := SF2Prim (binary_normalize prec emax n 0 false) in
  if PrimFloat.is_infinity x then Raise OverflowError else Ok x.

(** [x / n] for a float [x] and an int [n]. *)
Definition float_truediv_int (x : float) (n : Z) : res float :=
  match float_of_int n with
  | Raise e => Raise e
  | Ok y => if bool_decide (n = 0%Z) then Raise ZeroDivisionError
            else Ok (PrimFloat.div x y)
  end.

(** [n or 1] for an int [n]. *)
Definition int_or_1 (n : Z) : Z := if truthy_int n then n else 1%Z.

End Py.
Export Py.

(** ** Workbooks, as the workbook library presents them *)

Abbreviation facet := string (only parsing).

(** The six style facets the script copies. *)
Record Style : Type := mkStyle {
  font : facet;
  border : facet;
  fill : facet;
  number_format : facet;
  protection : facet;
  alignment : facet
}.

Definition default_style : Style :=
  mkStyle "font:default" "border:default" "fill:default" "General"
          "protection:default" "alignment:default".

Record Cell : Type := mkCell {
  value : Py.value;
  style : option Style
}.

Definition empty_cell : Cell := mkCell VNone None.

(** [cell.has_style] *)
Definition has_style (c : Cell) : bool :=
  match style c with Some _ => true | None => false end.

(** Reading a facet of a cell; an unstyled cell shows the default. *)
Definition cell_style (c : Cell) : Style := default default_style (style c).

(** (row, column), both counted from 1. *)
Abbreviation coord := (positive * positive)%type (only parsing).

Record Sheet : Type := mkSheet {
  title : string;
  cells : gmap coord Cell
}.

Record Workbook : Type := mkWorkbook {
  sheets : list Sheet;
  active_index : nat
}.

(** [wb.sheetnames] *)
Definition sheetnames (wb : Workbook) : list string := title <$> sheets wb.

(** The cell at a position; a position never written reads as empty. *)
Definition cell_at (s : Sheet) (p : coord) : Cell := default empty_cell (cells s !! p).

(** *** Addresses *)

Definition column_of_letter (a : Ascii.ascii) : option positive :=
  let n := Ascii.nat_of_ascii a in
  if decide (65 ≤ n ≤ 90) then Some (Pos.of_nat (n - 64)) else None.

Definition digit_of (a : Ascii.ascii) : option N :=
  let n := Ascii.nat_of_ascii a in
  if decide (48 ≤ n ≤ 57) then Some (N.of_nat (n - 48)) else None.

Fixpoint row_of_digits (acc : N) (s : string) : option N :=
  match s with
  | EmptyString => Some acc
  | String a s' =>
      match digit_of a with
      | Some d => row_of_digits (acc * 10 + d) s'
      | None => None
      end
  end.

(** Single-letter addresses such as ["G17"], which is all the script uses. *)
Definition coordinate_from_string (s : string) : option coord :=
  match s with
  | String a digits =>
      match column_of_letter a, row_of_digits 0 digits with
      | Some c, Some (Npos r) => Some (r, c)
      | _, _ => None
      end
  | EmptyString => None
  end.

Definition G17 : coord := (17, 7)%positive.
Definition G25 : coord := (25, 7)%positive.
Definition M25 : coord := (25, 13)%positive.
Definition F33 : coord := (33, 6)%positive.
Definition F35 : coord := (35, 6)%positive.
Definition F37 : coord := (37, 6)%positive.
Definition F39 : coord := (39, 6)%positive.
Definition F43 : coord := (43, 6)%positive.

(** *** Sheet operations *)

Definition set_cells (s : Sheet) (m : gmap coord Cell) : Sheet := mkSheet (title s) m.

Definition set_value (c : Cell) (v : Py.value) : Cell := mkCell v (style c).

(** [ws[address] = v]: the cell is fetched (or created) and its value set. *)
Definition ws_setitem (p : coord) (v : Py.value) (s : Sheet) : Sheet :=
  set_cells s (<[p := set_value (cell_at s p) v]> (cells s)).

(** [ws.cell(row, column, value)]: the cell is fetched (or created); the
    value is assigned only when it is not [None]. *)
Definition ws_cell (p : coord) (v : Py.value) (s : Sheet) : Sheet :=
  let c := cell_at s p in
  set_cells s (<[p := if is_None v then c else set_value c v]> (cells s)).

(** Assigning one facet of a cell: an unstyled cell gets a style that is
    default everywhere else. *)
Definition assign_facet (upd : Style → Style) (p : coord) (s : Sheet) : Sheet :=
  let c := cell_at s p in
  set_cells s (<[p := mkCell (value c) (Some (upd (cell_style c)))]> (cells s)).

Definition set_font (x : facet) (st : Style) : Style :=
  mkStyle x (border st) (fill st) (number_format st) (protection st) (alignment st).
Definition set_border (x : facet) (st : Style) : Style :=
  mkStyle (font st) x (fill st) (number_format st) (protection st) (alignment st).
Definition set_fill (x : facet) (st : Style) : Style :=
  mkStyle (font st) (border st) x (number_format st) (protection st) (alignment st).
Definition set_number_format (x : facet) (st : Style) : Style :=
  mkStyle (font st) (border st) (fill st) x (protection st) (alignment st).
Definition set_protection (x : facet) (st : Style) : Style :=
  mkStyle (font st) (border st) (fill st) (number_format st) x (alignment st).
Definition set_alignment (x : facet) (st : Style) : Style :=
  mkStyle (font st) (border st) (fill st) (number_format st) (protection st) x.

Definition max_row (s : Sheet) : positive :=
  map_fold (λ (p : coord) (_ : Cell) acc, Pos.max p.1 acc) 1%positive (cells s).
Definition max_column (s : Sheet) : positive :=
  map_fold (λ (p : coord) (_ : Cell) acc, Pos.max p.2 acc) 1%positive (cells s).

(** [range(1, n + 1)] *)
Definition range_from_1 (n : positive) : list positive :=
  Pos.of_nat <$> seq 1 (Pos.to_nat n).

(** [ws.iter_rows()]: nothing for a sheet without cells; otherwise the rows
    1 .. [max_row], each with the columns 1 .. [max_column], positions
    never written showing as empty cells. *)
Definition iter_rows (s : Sheet) : list (list (coord * Cell)) :=
  if decide (size (cells s) = 0) then []
  else (λ r, (λ c, ((r, c), cell_at s (r, c))) <$> range_from_1 (max_column s))
         <$> range_from_1 (max_row s).

(** ** Spreadsheet files, as the persistence layer holds them *)

(** A stored value: what a cell holds when it is not a formula, and what
    the engine that last evaluated a formula cached for it ([PNone] when
    nothing was cached). *)
Inductive plain : Type :=
| PNone
| PBool (b : bool)
| PInt (z : Z)
| PFloat (x : float)
| PStr (s : string).

Definition of_plain (p : plain) : Py.value :=
  match p with
  | PNone => VNone
  | PBool b => VBool b
  | PInt z => VInt z
  | PFloat x => VFloat x
  | PStr s => VStr s
  end.

Record FileCell : Type := mkFileCell {
  formula : option string;
  cached : plain;
  file_style : option Style
}.

Record FileSheet : Type := mkFileSheet {
  file_title : string;
  file_cells : gmap coord FileCell
}.

Record File : Type := mkFile {
  file_sheets : list FileSheet;
  active_tab : nat
}.

(** The two load modes: with [data_only = False] a formula cell holds its
    formula text, with [data_only = True] it holds the cached result. *)
Definition load_cell (data_only : bool) (c : FileCell) : Cell :=
  mkCell (match formula c with
          | Some text => if data_only then of_plain (cached c) else VFormula text
          | None => of_plain (cached c)
          end)
         (file_style c).

Definition load_sheet (data_only : bool) (s : FileSheet) : Sheet :=
  mkSheet (file_title s) (load_cell data_only <$> file_cells s).

Definition workbook_of_file (data_only : bool) (f : File) : Workbook :=
  mkWorkbook (load_sheet data_only <$> file_sheets f) (active_tab f).

(** What the user handed to a file-upload widget. *)
Inductive upload : Type :=
| Corrupt
| Xlsx (f : File).

Inductive source : Type :=
| FromUpload (u : upload)
| FromPath (path : string).

(** ** The world the script runs in *)

(** A reference to a workbook object; a sheet is referred to through its
    workbook and its position in it. *)
Abbreviation ref := nat (only parsing).
Abbreviation sheet_ref := (nat * nat)%type (only parsing).

Inductive piece : Type :=
| Lit (s : string)
| FloatVal (x : float)
| IntVal (z : Z)
| PyVal (v : Py.value)
| ExnVal (e : exn).

Abbreviation message := (list piece) (only parsing).

Inductive level : Type := Info | Warning | Error.

Inductive event : Type :=
| StTitle (m : message)
| StWrite (m : message)
| StWarning (m : message)
| StError (m : message)
| StSuccess (m : message)
| Log (l : level) (m : message)
| EngineLoad (src : source) (data_only : bool) (ok : bool)
| EngineSave (wb : Workbook) (path : string) (ok : bool)
| StDownloadButton (label : string) (data_path : string) (file_name : string).

Record Date : Type := mkDate { year : N; month : N; day : N }.

Record World : Type := mkWorld {
  heap : list Workbook;
  (** outcomes of the successive loads from a path; [None] is a failure *)
  disk_reads : list (option File);
  (** outcomes of the successive saves; [false] is a failure *)
  disk_writes : list bool;
  (** the names [NamedTemporaryFile] hands out *)
  tmp_names : list string;
  today : Date;
  random_draw : nat;
  (** what the script did, most recent event first *)
  trace : list event
}.

Definition with_heap (h : list Workbook) (w : World) : World :=
  mkWorld h (disk_reads w) (disk_writes w) (tmp_names w) (today w) (random_draw w) (trace w).
Definition with_disk_reads (r : list (option File)) (w : World) : World :=
  mkWorld (heap w) r (disk_writes w) (tmp_names w) (today w) (random_draw w) (trace w).
Definition with_disk_writes (r : list bool) (w : World) : World :=
  mkWorld (heap w) (disk_reads w) r (tmp_names w) (today w) (random_draw w) (trace w).
Definition with_tmp_names (r : list string) (w : World) : World :=
  mkWorld (heap w) (disk_reads w) (disk_writes w) r (today w) (random_draw w) (trace w).
Definition with_trace (t : list event) (w : World) : World :=
  mkWorld (heap w) (disk_reads w) (disk_writes w) (tmp_names w) (today w) (random_draw w) t.

(** *** State and exceptions *)

Definition M (A : Type) : Type := World → res A * World.

Definition ret {A} (a : A) : M A := λ w, (Ok a, w).
Definition raise {A} (e : exn) : M A := λ w, (Raise e, w).
Definition bind {A B} (m : M A) (k : A → M B) : M B :=
  λ w, match m w with
       | (Ok a, w') => k a w'
       | (Raise e, w') => (Raise e, w')
       end.
(** [try: m except Exception as e: handler e] *)
Definition try_except {A} (m : M A) (handler : exn → M A) : M A :=
  λ w, match m w with
       | (Ok a, w') => (Ok a, w')
       | (Raise e, w') => handler e w'
       end.

Notation "'let!' x ':=' m 'in' k" := (bind m (λ x, k))
  (at level 10, x pattern, m at level 100, k at level 200).
Notation "m ;; k" := (bind m (λ _, k))
  (at level 100, k at level 200, right associativity).

(** [for x in xs: body x] *)
Fixpoint for_each {A} (xs : list A) (body : A → M unit) : M unit :=
  match xs with
  | [] => ret tt
  | x :: xs' => body x;; for_each xs' body
  end.

Definition emit (e : event) : M unit := λ w, (Ok tt, with_trace (e :: trace w) w).

Definition st_title (m : message) : M unit := emit (StTitle m).
Definition st_write (m : message) : M unit := emit (StWrite m).
Definition st_warning (m : message) : M unit := emit (StWarning m).
Definition st_error (m : message) : M unit := emit (StError m).
Definition st_success (m : message) : M unit := emit (StSuccess m).
Definition logging (l : level) (m : message) : M unit := emit (Log l m).

(** *** Heap access *)

Definition alloc (wb : Workbook) : M ref :=
  λ w, (Ok (length (heap w)), with_heap (heap w ++ [wb]) w).

Definition read_workbook (r : ref) : M Workbook :=
  λ w, match heap w !! r with
       | Some wb => (Ok wb, w)
       | None => (Raise KeyError, w)
       end.

Definition write_workbook (r : ref) (wb : Workbook) : M unit :=
  λ w, (Ok tt, with_heap (<[r := wb]> (heap w)) w).

Definition read_sheet (sr : sheet_ref) : M Sheet :=
  let! wb := read_workbook sr.1 in
  match sheets wb !! sr.2 with
  | Some s => ret s
  | None => raise IndexError
  end.

Definition modify_sheet (sr : sheet_ref) (f : Sheet → Sheet) : M unit :=
  let! wb := read_workbook sr.1 in
  match sheets wb !! sr.2 with
  | Some s => write_workbook sr.1 (mkWorkbook (<[sr.2 := f s]> (sheets wb)) (active_index wb))
  | None => raise IndexError
  end.

(** ** The workbook library, on the heap *)

Definition next_disk_read : M (option File) :=
  λ w, match disk_reads w with
       | o :: rest => (Ok o, with_disk_reads rest w)
       | [] => (Ok None, w)
       end.

Definition next_disk_write : M bool :=
  λ w, match disk_writes w with
       | b :: rest => (Ok b, with_disk_writes rest w)
       | [] => (Ok false, w)
       end.

(** [load_workbook(src, data_only=...)]: a new workbook object, or an
    exception when the engine cannot read the source. *)
Definition load_workbook (src : source) (data_only : bool) : M ref :=
  let! outcome := match src with
                  | FromUpload Corrupt => ret None
                  | FromUpload (Xlsx f) => ret (Some f)
                  | FromPath _ => next_disk_read
                  end in
  match outcome with
  | Some f => emit (EngineLoad src data_only true);;
              alloc (workbook_of_file data_only f)
  | None => emit (EngineLoad src data_only false);; raise IOError
  end.

(** [workbook.save(path)] *)
Definition workbook_save (workbook : ref) (path : string) : M unit :=
  let! wb := read_workbook workbook in
  let! ok := next_disk_write in
  emit (EngineSave wb path ok);;
  if ok : bool then ret tt else raise IOError.

(** [Workbook()]: a new workbook with its default sheet. *)
Definition new_workbook : M ref := alloc (mkWorkbook [mkSheet "Sheet" ∅] 0).

(** [wb.active] *)
Definition workbook_active (r : ref) : M sheet_ref :=
  let! wb := read_workbook r in
  if decide (active_index wb < length (sheets wb)) then ret (r, active_index wb)
  else raise IndexError.

(** [wb.remove(ws)] for a sheet [ws] of [wb]. *)
Definition workbook_remove (r : ref) (ws : sheet_ref) : M unit :=
  let! wb := read_workbook r in
  write_workbook r (mkWorkbook (delete ws.2 (sheets wb)) (active_index wb)).

(** [wb[name]]: the first sheet of that title, [KeyError] when none. *)
Definition workbook_getitem (r : ref) (name : string) : M sheet_ref :=
  let! wb := read_workbook r in
  match list_find (λ s, title s = name) (sheets wb) with
  | Some (i, _) => ret (r, i)
  | None => raise KeyError
  end.

(** [ws[address].value] *)
Definition cell_value (ws : sheet_ref) (p : coord) : M Py.value :=
  let! s := read_sheet ws in ret (value (cell_at s p)).

(** [tempfile.NamedTemporaryFile(delete=False, suffix='.xlsx')], as far as
    its [name] goes. *)
Definition named_temporary_file (suffix : string) : M string :=
  λ w, match tmp_names w with
       | n :: rest => (Ok (n +:+ suffix), with_tmp_names rest w)
       | [] => (Raise IOError, w)
       end.

(** [s] padded with zeros on the left to [width] characters. *)
Definition zero_padded (width : nat) (s : string) : string :=
  String.concat "" (replicate (width - String.length s) "0") +:+ s.

(** [datetime.datetime.now().strftime('%Y%m%d')] *)
Definition strftime_Ymd : M string :=
  λ w, (Ok (zero_padded 4 (pretty (year (today w)))
              +:+ zero_padded 2 (pretty (month (today w)))
              +:+ zero_padded 2 (pretty (day (today w)))), w).

(** [random.randint(10, 99)] *)
Definition randint_10_99 : M N := λ w, (Ok (N.of_nat (10 + random_draw w mod 90)), w).

Section Script.

(** The title a new sheet receives, given the titles already in the
    workbook and the title asked for.  The workbook library decides it
    ([create_sheet] does not promise to keep a title that is taken); the
    script has no say in it, so it is a parameter here. *)
Variable assign_title : list string → string → string.

(** [wb.create_sheet(title=...)]: a new, empty sheet at the end. *)
Definition create_sheet (r : ref) (requested : string) : M sheet_ref :=
  let! wb := read_workbook r in
  write_workbook r (mkWorkbook
    (sheets wb ++ [mkSheet (assign_title (sheetnames wb) requested) ∅])
    (active_index wb));;
  ret (r, length (sheets wb)).

(** ** The script *)

Definition load_excel (file_path : string) : M ref :=
  try_except
    (st_write [Lit "Loading workbook from: "; Lit file_path];;
     logging Info [Lit "Loading workbook from: "; Lit file_path];;
     load_workbook (FromPath file_path) false)
    (λ e,
     logging Error [Lit "Failed to load workbook from "; Lit file_path; Lit ": "; ExnVal e];;
     st_error [Lit "Failed to load workbook from "; Lit file_path;
               Lit ". Check the file path and try again."];;
     raise e).

Definition save_excel (workbook : ref) (file_path : string) : M unit :=
  try_except
    (st_write [Lit "Saving workbook to: "; Lit file_path];;
     logging Info [Lit "Saving workbook to: "; Lit file_path];;
     workbook_save workbook file_path)
    (λ e,
     logging Error [Lit "Failed to save workbook to "; Lit file_path; Lit ": "; ExnVal e];;
     st_error [Lit "Failed to save workbook to "; Lit file_path;
               Lit ". Check if the file is open or locked."];;
     raise e).

(** The state of the widgets during one run of the script. *)
Record Widgets : Type := mkWidgets {
  keyword_name : string;
  landed_cost_file : option upload;
  profit_calc_file : option upload;
  shipping_total : float;
  unit_cost : float;
  target_sales_per_month : Z;
  selling_price : float;
  fulfillment_fee : float;
  storage_cost : float;
  button : bool
}.

(** [v is not None and not isinstance(v, str)] *)
Definition is_valid (v : Py.value) : bool :=
  negb (is_None v) && negb (isinstance_str v).

(** Lines 118-125: the attempts to read M25, reloading after each failure. *)
Fixpoint attempts_loop (attempts : list nat) (landed_cost_file_path : string)
    (wb_landed_cost : ref) (sheet_landed_cost : sheet_ref)
    (calculated_landed_cost : Py.value) : M (Py.value * ref * sheet_ref) :=
  match attempts with
  | [] => ret (calculated_landed_cost, wb_landed_cost, sheet_landed_cost)
  | attempt :: rest =>
      let! calculated_landed_cost := cell_value sheet_landed_cost M25 in
      if is_valid calculated_landed_cost
      then ret (calculated_landed_cost, wb_landed_cost, sheet_landed_cost)
      else
        logging Warning [Lit "Attempt "; IntVal (Z.of_nat attempt + 1);
          Lit ": Failed to retrieve a valid landed cost value from cell M25. Retrying..."];;
        st_write [Lit "Attempt "; IntVal (Z.of_nat attempt + 1);
          Lit ": Retrying to get a valid landed cost value..."];;
        let! wb_landed_cost := load_workbook (FromPath landed_cost_file_path) true in
        let! sheet_landed_cost := workbook_active wb_landed_cost in
        attempts_loop rest landed_cost_file_path wb_landed_cost sheet_landed_cost
                      calculated_landed_cost
  end.

(** Line 129: [(shipping_total + unit_cost) / (target_sales_per_month or 1)] *)
Definition fallback_landed_cost (ui : Widgets) : res float :=
  float_truediv_int (PrimFloat.add (shipping_total ui) (unit_cost ui))
                    (int_or_1 (target_sales_per_month ui)).

(** Lines 116-131: the value of [calculated_landed_cost] (and the
    workbook [wb_landed_cost] is bound to) once the attempts and the
    fallback are through. *)
Definition extract_landed_cost (ui : Widgets) (landed_cost_file_path : string)
    (wb_landed_cost : ref) (sheet_landed_cost : sheet_ref) : M (Py.value * ref) :=
  let! after_loop :=
    attempts_loop (seq 0 3) landed_cost_file_path wb_landed_cost sheet_landed_cost VNone in
  let '(calculated_landed_cost, wb_landed_cost, sheet_landed_cost) := after_loop in
  if is_None calculated_landed_cost || isinstance_str calculated_landed_cost then
    match fallback_landed_cost ui with
    | Raise e => raise e
    | Ok x =>
        logging Warning [Lit "Using fallback manual calculation for Landed Cost."];;
        st_warning [Lit "Failed to retrieve recalculated Landed Cost. Using fallback manual calculation."];;
        ret (VFloat x, wb_landed_cost)
    end
  else ret (calculated_landed_cost, wb_landed_cost).

(** Lines 160-167 (and 177-184): one cell of the source sheet copied
    into the target sheet. *)
Definition copy_cell (target_sheet : sheet_ref) (cell : coord * Cell) : M unit :=
  (* new_cell = target_sheet.cell(row=cell.row, column=cell.column, value=cell.value) *)
  modify_sheet target_sheet (ws_cell cell.1 (value cell.2));;
  if has_style cell.2 then
    modify_sheet target_sheet (assign_facet (set_font (font (cell_style cell.2))) cell.1);;
    modify_sheet target_sheet (assign_facet (set_border (border (cell_style cell.2))) cell.1);;
    modify_sheet target_sheet (assign_facet (set_fill (fill (cell_style cell.2))) cell.1);;
    modify_sheet target_sheet
      (assign_facet (set_number_format (number_format (cell_style cell.2))) cell.1);;
    modify_sheet target_sheet
      (assign_facet (set_protection (protection (cell_style cell.2))) cell.1);;
    modify_sheet target_sheet
      (assign_facet (set_alignment (alignment (cell_style cell.2))) cell.1)
  else ret tt.

(** Lines 156-167 (and 173-184): one sheet of a source workbook copied
    into a new sheet of the combined workbook. *)
Definition copy_sheet (workbook combined_workbook : ref) (sheet_name : string) : M unit :=
  let! source_sheet := workbook_getitem workbook sheet_name in
  let! target_sheet := create_sheet combined_workbook sheet_name in
  let! rows := (let! s := read_sheet source_sheet in ret (iter_rows s)) in
  for_each rows (λ row, for_each row (λ cell, copy_cell target_sheet cell)).

(** Lines 153-167 (and 170-184): every sheet of a source workbook. *)
Definition copy_sheets (what : string) (workbook combined_workbook : ref) : M unit :=
  let! names := (let! wb := read_workbook workbook in ret (sheetnames wb)) in
  for_each names (λ sheet_name,
    st_write [Lit "Copying "; Lit what; Lit " sheet: "; Lit sheet_name];;
    logging Info [Lit "Copying "; Lit what; Lit " sheet: "; Lit sheet_name];;
    copy_sheet workbook combined_workbook sheet_name).

(** Lines 149-184: the combined workbook. *)
Definition merge (wb_landed_cost wb_profit_calc : ref) : M ref :=
  let! combined_workbook := new_workbook in
  (let! default_sheet := workbook_active combined_workbook in
   workbook_remove combined_workbook default_sheet);;
  copy_sheets "Landed Cost" wb_landed_cost combined_workbook;;
  copy_sheets "Profit Calculator" wb_profit_calc combined_workbook;;
  ret combined_workbook.

Definition inputs_message (ui : Widgets) : message :=
  [Lit "Inputs collected: Shipping Total = "; FloatVal (shipping_total ui);
   Lit ", Unit Cost = "; FloatVal (unit_cost ui);
   Lit ", Target Sales per Month = "; IntVal (target_sales_per_month ui);
   Lit ", Selling Price = "; FloatVal (selling_price ui);
   Lit ", Fulfillment Fee = "; FloatVal (fulfillment_fee ui);
   Lit ", Storage Cost = "; FloatVal (storage_cost ui)].

(** Lines 97-198: the body of the [try] block. *)
Definition calculate_and_update (ui : Widgets)
    (wb_landed_cost : ref) (sheet_landed_cost : sheet_ref)
    (wb_profit_calc : ref) (sheet_profit_calc : sheet_ref) : M unit :=
  st_write [Lit "Updating Landed Cost HFBA Excel file..."];;
  logging Info [Lit "Updating Landed Cost HFBA Excel file..."];;
  modify_sheet sheet_landed_cost (ws_setitem G17 (VFloat (shipping_total ui)));;
  modify_sheet sheet_landed_cost (ws_setitem G25 (VFloat (unit_cost ui)));;
  let! landed_cost_file_path :=
    (let! tmp_name := named_temporary_file ".xlsx" in
     st_write [Lit "Saving temporary Landed Cost workbook to: "; Lit tmp_name];;
     logging Info [Lit "Saving temporary Landed Cost workbook to: "; Lit tmp_name];;
     save_excel wb_landed_cost tmp_name;;
     ret tmp_name) in
  st_write [Lit "Reloading Landed Cost workbook to recalculate formulas..."];;
  logging Info [Lit "Reloading Landed Cost workbook to recalculate formulas..."];;
  let! wb_landed_cost := load_workbook (FromPath landed_cost_file_path) true in
  let! sheet_landed_cost := workbook_active wb_landed_cost in
  let! extracted :=
    extract_landed_cost ui landed_cost_file_path wb_landed_cost sheet_landed_cost in
  let '(calculated_landed_cost, wb_landed_cost) := extracted in
  st_write [Lit "Calculated Landed Cost extracted: "; PyVal calculated_landed_cost];;
  logging Info [Lit "Calculated Landed Cost extracted: "; PyVal calculated_landed_cost];;
  st_write [Lit "Updating Pycnogenol Profit Calculator with provided values..."];;
  logging Info [Lit "Updating Pycnogenol Profit Calculator with provided values..."];;
  modify_sheet sheet_profit_calc (ws_setitem F33 (VInt (target_sales_per_month ui)));;
  modify_sheet sheet_profit_calc (ws_setitem F35 (VFloat (selling_price ui)));;
  modify_sheet sheet_profit_calc (ws_setitem F37 (VFloat (fulfillment_fee ui)));;
  modify_sheet sheet_profit_calc (ws_setitem F43 (VFloat (storage_cost ui)));;
  modify_sheet sheet_profit_calc (ws_setitem F39 calculated_landed_cost);;
  let! combined_file_path :=
    (let! date := strftime_Ymd in
     let! number := randint_10_99 in
     ret (keyword_name ui +:+ "_" +:+ date +:+ "_" +:+ pretty number +:+ ".xlsx")) in
  st_write [Lit "Saving combined workbook to: "; Lit combined_file_path];;
  logging Info [Lit "Saving combined workbook to: "; Lit combined_file_path];;
  let! combined_workbook := merge wb_landed_cost wb_profit_calc in
  let! combined_file_path :=
    (let! tmp_name := named_temporary_file ".xlsx" in
     let combined_file_path := tmp_name in
     save_excel combined_workbook combined_file_path;;
     ret combined_file_path) in
  st_success [Lit "Excel files have been updated and combined successfully."];;
  st_write [Lit "Excel files have been successfully updated and combined."];;
  logging Info [Lit "Excel files have been successfully updated and combined."];;
  emit (StDownloadButton "Download Combined Calculators" combined_file_path
          (keyword_name ui +:+ "_Updated_Profit_Calculator.xlsx")).

(** Lines 60-66: both uploads loaded in formula mode, or neither. *)
Definition load_uploads (landed_cost_file profit_calc_file : upload)
    : M (option (ref * ref)) :=
  try_except
    (let! wb_landed_cost := load_workbook (FromUpload landed_cost_file) false in
     let! wb_profit_calc := load_workbook (FromUpload profit_calc_file) false in
     ret (Some (wb_landed_cost, wb_profit_calc)))
    (λ e,
     logging Error [Lit "Failed to load Excel files: "; ExnVal e];;
     st_error [Lit "Failed to load one or both Excel files. Please check the files and try again."];;
     ret None).

(** Lines 85-201, once both workbooks are loaded and have sheets. *)
Definition collect_and_run (ui : Widgets) (wb_landed_cost wb_profit_calc : ref) : M unit :=
  let! sheet_landed_cost := workbook_active wb_landed_cost in
  let! sheet_profit_calc := workbook_active wb_profit_calc in
  if negb (truthy_float (shipping_total ui) && truthy_float (unit_cost ui)
           && truthy_int (target_sales_per_month ui) && truthy_float (selling_price ui)
           && truthy_float (fulfillment_fee ui) && truthy_float (storage_cost ui))
  then
    st_error [Lit "All fields must be filled out before proceeding."];;
    logging Error [Lit "Input validation failed: Not all fields were filled out."]
  else
    logging Info (inputs_message ui);;
    st_write (inputs_message ui);;
    if button ui then
      st_write [Lit "Button pressed. Starting calculation and update process..."];;
      logging Info [Lit "Button pressed. Starting calculation and update process..."];;
      try_except
        (calculate_and_update ui wb_landed_cost sheet_landed_cost
                              wb_profit_calc sheet_profit_calc)
        (λ e,
         logging Error [Lit "Error during calculation and update process: "; ExnVal e];;
         st_error [Lit "An error occurred during the calculation and update process. Check the log file for details."])
    else ret tt.

Definition main (ui : Widgets) : M unit :=
  st_title [Lit "Profit Calculator Tool"];;
  logging Info [Lit "Profit Calculator Tool started"];;
  if negb (truthy_str (keyword_name ui)) then
    st_warning [Lit "Please enter a keyword name before proceeding."];;
    logging Warning [Lit "No keyword name entered"]
  else
    st_write [Lit "Keyword Name Entered: "; Lit (keyword_name ui)];;
    logging Info [Lit "Keyword Name Entered: "; Lit (keyword_name ui)];;
    st_write [Lit "Upload Excel files..."];;
    match landed_cost_file ui, profit_calc_file ui with
    | Some landed_cost_file, Some profit_calc_file =>
        let! loaded := load_uploads landed_cost_file profit_calc_file in
        match loaded with
        | None => ret tt
        | Some (wb_landed_cost, wb_profit_calc) =>
            let! names_a := (let! wb := read_workbook wb_landed_cost in ret (sheetnames wb)) in
            let! names_b := (let! wb := read_workbook wb_profit_calc in ret (sheetnames wb)) in
            match names_a, names_b with
            | _ :: _, _ :: _ => collect_and_run ui wb_landed_cost wb_profit_calc
            | _, _ =>
                st_error [Lit "Failed to load one or both Excel files. Please check the file paths and try again."];;
                logging Error [Lit "Failed to load one or both Excel files. No sheetnames found."]
            end
        end
    | _, _ => st_warning [Lit "Please upload both Excel files to proceed."]
    end.

End Script.

(** ** Observations on a run *)

(** The value at a position of the active sheet, when there is one. *)
Definition active_cell_value (wb : Workbook) (p : coord) : option Py.value :=
  s ← sheets wb !! active_index wb; Some (value (cell_at s p)).

(** "Absent or text-typed": what the script takes for a recalculation
    that has not materialised. *)
Definition not_materialized (v : Py.value) : Prop :=
  v = VNone ∨ isinstance_str v = true.

(** The world after a successful load of [f] from [path]. *)
Definition after_load (path : string) (data_only : bool) (f : File)
    (rest : list (option File)) (w : World) : World :=
  mkWorld (heap w ++ [workbook_of_file data_only f]) rest (disk_writes w) (tmp_names w)
          (today w) (random_draw w) (EngineLoad (FromPath path) data_only true :: trace w).

(** Outcomes of the engine calls in a trace, most recent first. *)
Definition engine_outcome (e : event) : option bool :=
  match e with
  | EngineLoad _ _ ok => Some ok
  | EngineSave _ _ ok => Some ok
  | _ => None
  end.
Definition engine_outcomes (t : list event) : list bool := omap engine_outcome t.

Definition is_fallback_warning (e : event) : bool :=
  match e with
  | StWarning [Lit s] =>
      bool_decide (s = "Failed to retrieve recalculated Landed Cost. Using fallback manual calculation.")
  | _ => false
  end.

(** Whether the user was told that the landed cost is the fallback value. *)
Definition fallback_announced (t : list event) : bool := existsb is_fallback_warning t.

(** ** What the copy loops compute *)





(** A sheet of a workbook on the heap, changed in place. *)
Definition update_sheet (sr : sheet_ref) (f : Sheet → Sheet) (w : World) : World :=
  with_heap (alter (λ wb, mkWorkbook (alter f sr.2 (sheets wb)) (active_index wb))
                   sr.1 (heap w)) w.




Section CopySpec.

Variable assign_title : list string → string → string.







(** Every request received the very title it asked for. *)
Definition titles_kept (requests : list string) : Prop :=
  ∀ i t, requests !! i = Some t → assign_title (take i requests) t = t.

End CopySpec.

(** Two ways a library can treat a title that is already taken: hand it
    out again, or (as the workbook library that the script imports does)
    hand out a title that is still free by appending a number. *)
Definition keep_title (existing : list string) (t : string) : string := t.

Fixpoint first_free (fuel n : nat) (existing : list string) (t : string) : string :=
  match fuel with
  | 0 => t +:+ pretty n
  | S fuel' =>
      if bool_decide (t +:+ pretty n ∈ existing)
      then first_free fuel' (S n) existing t
      else t +:+ pretty n
  end.

Definition number_if_taken (existing : list string) (t : string) : string :=
  if bool_decide (t ∈ existing) then first_free (length existing) 1 existing t else t.

(** ** Sample documents and runs *)

Definition sample_style : Style :=
  mkStyle "font:bold" "border:thin" "fill:yellow" "0.00" "protection:locked"
          "alignment:center".

(** A landed-cost file: the two input cells and the formula cell M25,
    with [m25] as the result cached for the formula. *)
Definition landed_cost_xlsx (m25 : plain) : File :=
  mkFile [mkFileSheet "Landed Cost"
            (<[G17 := mkFileCell None (PFloat 0) None]>
             (<[G25 := mkFileCell None (PFloat 0) (Some sample_style)]>
              (<[M25 := mkFileCell (Some "=G17+G25") m25 None]> ∅)))] 0.

(** A profit-calculator file: a styled input cell and a formula cell. *)
Definition profit_calc_xlsx : File :=
  mkFile [mkFileSheet "Profit"
            (<[F39 := mkFileCell None PNone (Some sample_style)]>
             (<[(45, 6)%positive := mkFileCell (Some "=F35-F39") (PFloat 1) None]> ∅))] 0.

Definition sample_widgets (target : Z) : Widgets :=
  mkWidgets "WidgetX" (Some (Xlsx (landed_cost_xlsx PNone))) (Some (Xlsx profit_calc_xlsx))
            10 5 target 29.99 3.5 0.75 true.


(** A world whose heap already holds a computed-mode load of a
    landed-cost file. *)
Definition reloaded_world (m25 : plain) (reads : list (option File)) : World :=
  mkWorld [workbook_of_file true (landed_cost_xlsx m25)] reads [] [] (mkDate 2024 3 7) 32 [].

(** Two workbooks on the heap, ready to be merged. *)
Definition documents_world (A B : Workbook) : World :=
  mkWorld [A; B] [] [] [] (mkDate 2024 3 7) 32 [].

(** Two one-sheet documents whose sheets have the same name. *)
Definition data_workbook (v : Z) : Workbook :=
  mkWorkbook [mkSheet "Data" {[ (1, 1)%positive := mkCell (VInt v) None ]}] 0.


(** An event that is either a message or a computed-mode load of [path]. *)
Definition reload_or_message (path : string) (e : event) : Prop :=
  match e with
  | EngineLoad src data_only _ => src = FromPath path ∧ data_only = true
  | EngineSave _ _ _ => False
  | StDownloadButton _ _ _ => False
  | _ => True
  end.

(** [w'] is [w] after at most [n] reloads of [path] and nothing else but
    messages: the events [new] were added, workbooks were only added to
    the heap, and one outcome of the disk was consumed per reload. *)
Definition after_reloads (path : string) (n : nat) (w w' : World)
    (new : list event) : Prop :=
  trace w' = new ++ trace w
  ∧ Forall (reload_or_message path) new
  ∧ length (engine_outcomes new) ≤ n
  ∧ disk_reads w' = drop (length (engine_outcomes new)) (disk_reads w)
  ∧ (∃ added, heap w' = heap w ++ added)
  ∧ disk_writes w' = disk_writes w
  ∧ tmp_names w' = tmp_names w.

(** ** Engine calls that fail *)

Definition is_download (e : event) : bool :=
  match e with StDownloadButton _ _ _ => true | _ => false end.

Definition all_succeeded (outcomes : list bool) : Prop :=
  Forall (λ ok, ok = true) outcomes.

(** Every engine call succeeded, except possibly the most recent one: a
    call that failed was not followed by another call. *)
Definition failure_is_last (outcomes : list bool) : Prop :=
  match outcomes with
  | [] => True
  | _ :: older => all_succeeded older
  end.

(** A computation that never offers a download, whose engine calls all
    succeeded when it returns, and that made no engine call after a
    failed one when it raises. *)
Definition stops_at_failure {A} (m : M A) : Prop :=
  ∀ w, ∃ new,
    trace (m w).2 = new ++ trace w
    ∧ Forall (λ e, is_download e = false) new
    ∧ match (m w).1 with
      | Ok _ => all_succeeded (engine_outcomes new)
      | Raise _ => failure_is_last (engine_outcomes new)
      end.

(** The same, except that a download may have been offered when the
    computation returns. *)
Definition stops_at_failure_or_offers {A} (m : M A) : Prop :=
  ∀ w, ∃ new,
    trace (m w).2 = new ++ trace w
    ∧ match (m w).1 with
      | Ok _ => all_succeeded (engine_outcomes new)
      | Raise _ => failure_is_last (engine_outcomes new)
                   ∧ Forall (λ e, is_download e = false) new
      end.

(** A computation that leaves the trace alone. *)
Definition silent {A} (m : M A) : Prop := ∀ w, trace (m w).2 = trace w.

(** The test of line 85, on the values of the six number inputs. *)
Definition all_fields_filled (ui : Widgets) : bool :=
  truthy_float (shipping_total ui) && truthy_float (unit_cost ui)
  && truthy_int (target_sales_per_month ui) && truthy_float (selling_price ui)
  && truthy_float (fulfillment_fee ui) && truthy_float (storage_cost ui).

(** The most recent event is an error shown to the user. *)
Definition ends_in_error (new : list event) : Prop :=
  ∃ m older, new = StError m :: older.

(** A run in which no engine call follows a failed one and in which,
    when the most recent engine call failed, the last thing that
    happened is an error shown to the user and no download was offered. *)
Definition reports_failure {A} (m : M A) : Prop :=
  ∀ w, ∃ new,
    trace (m w).2 = new ++ trace w
    ∧ failure_is_last (engine_outcomes new)
    ∧ (head (engine_outcomes new) = Some false →
       ends_in_error new ∧ Forall (λ e, is_download e = false) new).

(** ** Runs that do not start *)

(** An event that is neither a save, nor a download, nor a load from the
    disk; the only engine call it may be is the formula-mode load of an
    upload. *)
Definition harmless (e : event) : Prop :=
  match e with
  | EngineSave _ _ _ => False
  | StDownloadButton _ _ _ => False
  | EngineLoad (FromPath _) _ _ => False
  | EngineLoad (FromUpload _) data_only _ => data_only = false
  | _ => True
  end.

(** A computation that changes no workbook: all it may do is show
    messages and put formula-mode loads of uploads on the heap. *)
Definition inert {A} (m : M A) : Prop :=
  ∀ w, ∃ new added,
    trace (m w).2 = new ++ trace w
    ∧ Forall harmless new
    ∧ heap (m w).2 = heap w ++ added
    ∧ Forall (λ wb, ∃ f, wb = workbook_of_file false f) added
    ∧ disk_reads (m w).2 = disk_reads w
    ∧ disk_writes (m w).2 = disk_writes w
    ∧ tmp_names (m w).2 = tmp_names w.

(** The run goes as far as the [try] block. *)
Definition run_starts (ui : Widgets) : Prop :=
  keyword_name ui ≠ ""
  ∧ is_Some (landed_cost_file ui) ∧ is_Some (profit_calc_file ui)
  ∧ all_fields_filled ui = true ∧ button ui = true.

(** ** A run that goes through *)







(** An upload the script cannot work with: the engine cannot read it, or
    it has no sheet. *)
Definition unusable (u : upload) : Prop :=
  match u with
  | Corrupt => True
  | Xlsx f => file_sheets f = []
  end.

(** Everything filled in and the button pressed, with a first upload
    that cannot be read. *)
Definition corrupt_upload_widgets : Widgets :=
  let ui := sample_widgets 100 in
  mkWidgets (keyword_name ui) (Some Corrupt) (profit_calc_file ui)
            (shipping_total ui) (unit_cost ui) (target_sales_per_month ui)
            (selling_price ui) (fulfillment_fee ui) (storage_cost ui) (button ui).

(** * Properties *)

(** ** The monad *)

Lemma bind_Ok {A B} (m : M A) (k : A → M B) w a w' :
  m w = (Ok a, w') → bind m k w = k a w'.
Proof. intros H. unfold bind. by rewrite H. Qed.

Lemma bind_Raise {A B} (m : M A) (k : A → M B) w e w' :
  m w = (Raise e, w') → bind m k w = (Raise e, w').
Proof. intros H. unfold bind. by rewrite H. Qed.

Lemma bind_Ok_inv {A B} (m : M A) (k : A → M B) w b w'' :
  bind m k w = (Ok b, w'') → ∃ a w', m w = (Ok a, w') ∧ k a w' = (Ok b, w'').
Proof.
  unfold bind. destruct (m w) as [[a|e] w'] eqn:E; intros H; [eauto | discriminate].
Qed.

(** ** The extractor *)

Lemma is_valid_iff v : is_valid v = true ↔ v ≠ VNone ∧ isinstance_str v = false.
Proof. destruct v; cbn; split; try done; intros [? ?]; done. Qed.

Lemma not_materialized_iff v : not_materialized v ↔ is_valid v = false.
Proof. unfold not_materialized. destruct v; cbn; split; try done; (intros [?|?]; done) || eauto. Qed.

Lemma cell_value_lookup (sr : sheet_ref) p w wb s :
  heap w !! sr.1 = Some wb → sheets wb !! sr.2 = Some s →
  cell_value sr p w = (Ok (value (cell_at s p)), w).
Proof.
  intros Hwb Hs. unfold cell_value, read_sheet, bind, read_workbook.
  by rewrite Hwb, Hs.
Qed.

Lemma load_from_path path data_only w f rest :
  disk_reads w = Some f :: rest →
  load_workbook (FromPath path) data_only w
  = (Ok (length (heap w)), after_load path data_only f rest w).
Proof.
  intros H. unfold load_workbook, bind, next_disk_read. by rewrite H.
Qed.

Lemma after_load_lookup path data_only f rest w :
  heap (after_load path data_only f rest w) !! length (heap w)
  = Some (workbook_of_file data_only f).
Proof. cbn. by rewrite lookup_app_r, Nat.sub_diag by lia. Qed.

(** One reload, followed by [.active] and the read of a cell. *)
Lemma reload_then_read path w f rest p v :
  disk_reads w = Some f :: rest →
  active_cell_value (workbook_of_file true f) p = Some v →
  let w1 := after_load path true f rest w in
  let sheet := (length (heap w), active_tab f) in
  load_workbook (FromPath path) true w = (Ok (length (heap w)), w1)
  ∧ workbook_active (length (heap w)) w1 = (Ok sheet, w1)
  ∧ cell_value sheet p w1 = (Ok v, w1).
Proof.
  intros Hreads Hv w1 sheet.
  pose proof (after_load_lookup path true f rest w) as Hheap. fold w1 in Hheap.
  unfold active_cell_value in Hv.
  destruct (sheets (workbook_of_file true f) !! active_index (workbook_of_file true f))
    as [s|] eqn:Hs; [|done].
  injection Hv as <-.
  split; [by apply load_from_path|]. split.
  - unfold workbook_active, bind, read_workbook. rewrite Hheap.
    apply lookup_lt_Some in Hs. by rewrite decide_True.
  - by eapply cell_value_lookup.
Qed.

(** C3.  When the first computed-mode read of the derived cell M25 is
    present (not [None]) and not text-typed, the extractor hands on
    exactly that value: no reload, no message, no fallback computation,
    and [wb_landed_cost] is still the workbook that was read.  The test
    the script applies is exactly "present and not text-typed". *)
Theorem first_valid_read_is_used ui path (wb_landed_cost : ref)
    (sheet_landed_cost : sheet_ref) w wb s v :
  heap w !! sheet_landed_cost.1 = Some wb →
  sheets wb !! sheet_landed_cost.2 = Some s →
  value (cell_at s M25) = v →
  v ≠ VNone → isinstance_str v = false →
  extract_landed_cost ui path wb_landed_cost sheet_landed_cost w
  = (Ok (v, wb_landed_cost), w)
  ∧ (∀ v', is_valid v' = true ↔ v' ≠ VNone ∧ isinstance_str v' = false).
Proof.
  intros Hwb Hs Hv Hpresent Hnum. split; [|apply is_valid_iff].
  assert (Hvalid : is_valid v = true) by by apply is_valid_iff.
  unfold extract_landed_cost. cbn [seq attempts_loop].
  erewrite bind_Ok; [|erewrite bind_Ok; [|by eapply cell_value_lookup]; cbv beta;
                      rewrite Hv, Hvalid; reflexivity].
  cbv beta iota.
  unfold is_valid in Hvalid. apply andb_true_iff in Hvalid as [H1 H2].
  apply negb_true_iff in H1, H2. by rewrite H1, H2.
Qed.

Lemma first_valid_read_is_used_witness :
  extract_landed_cost (sample_widgets 100) "/tmp/tmp1.xlsx" 0 (0, 0)
                      (reloaded_world (PFloat 15) [])
  = (Ok (VFloat 15, 0), reloaded_world (PFloat 15) []).
Proof.
  refine (proj1 (first_valid_read_is_used (sample_widgets 100) "/tmp/tmp1.xlsx" 0 (0, 0)
                   (reloaded_world (PFloat 15) []) _ _ (VFloat 15) _ _ _ _ _)).
  - reflexivity.
  - reflexivity.
  - reflexivity.
  - discriminate.
  - reflexivity.
Defined.

Lemma int_or_1_max (n : Z) : (0 ≤ n)%Z → int_or_1 n = Z.max n 1.
Proof.
  intros Hn. unfold int_or_1, truthy_int. case_bool_decide; lia.
Qed.

Lemma float_truediv_int_nonzero x (n : Z) :
  n ≠ 0%Z → float_truediv_int x n ≠ Raise ZeroDivisionError.
Proof.
  intros Hn. unfold float_truediv_int, float_of_int.
  destruct (PrimFloat.is_infinity _); [discriminate|].
  rewrite bool_decide_eq_false_2 by done. discriminate.
Qed.

(** One failed attempt of the loop: the read is not usable, the file is
    reloaded and the loop goes on with the reloaded workbook. *)
Lemma attempts_loop_retry attempt rest_attempts path (wb0 : ref) (sheet0 : sheet_ref)
    v_old w v f rest :
  cell_value sheet0 M25 w = (Ok v, w) →
  not_materialized v →
  disk_reads w = Some f :: rest →
  active_tab f < length (file_sheets f) →
  ∃ tr,
    attempts_loop (attempt :: rest_attempts) path wb0 sheet0 v_old w
    = attempts_loop rest_attempts path (length (heap w)) (length (heap w), active_tab f) v
        (after_load path true f rest (with_trace (tr ++ trace w) w))
    ∧ fallback_announced tr = false.
Proof.
  intros Hread Hbad Hreads Hactive.
  apply not_materialized_iff in Hbad.
  eexists [_; _]. split.
  - cbn [attempts_loop]. erewrite bind_Ok by exact Hread. rewrite Hbad.
    unfold bind at 1, logging at 1, emit at 1.
    unfold bind at 1, st_write at 1, emit at 1.
    unfold bind at 1. unfold load_workbook at 1.
    unfold bind at 1, next_disk_read. cbn [disk_reads with_trace]. rewrite Hreads.
    unfold bind at 1, emit at 1, alloc at 1.
    unfold bind at 1, workbook_active at 1, bind at 1, read_workbook at 1.
    cbn [heap with_heap with_trace with_disk_reads].
    rewrite lookup_app_r, Nat.sub_diag by lia.
    cbn [lookup list_lookup workbook_of_file sheets active_index].
    rewrite length_fmap, decide_True by done.
    unfold ret at 1. reflexivity.
  - reflexivity.
Qed.

Lemma active_cell_value_tab data_only f p v :
  active_cell_value (workbook_of_file data_only f) p = Some v →
  active_tab f < length (file_sheets f).
Proof.
  unfold active_cell_value. cbn. intros H.
  destruct (_ !! active_tab f) eqn:E; [|done].
  apply lookup_lt_Some in E. by rewrite length_fmap in E.
Qed.

Lemma cell_value_after_load path data_only f rest w p v :
  active_cell_value (workbook_of_file data_only f) p = Some v →
  cell_value (length (heap w), active_tab f) p (after_load path data_only f rest w)
  = (Ok v, after_load path data_only f rest w).
Proof.
  unfold active_cell_value. intros H.
  destruct (sheets _ !! _) as [s|] eqn:Hs; [|done]. injection H as <-.
  eapply cell_value_lookup; [apply after_load_lookup | exact Hs].
Qed.

(** C1.  When each of the three attempts reads a value of M25 that is
    absent or text-typed (the reloads themselves succeeding), the landed
    cost handed on is [(shipping_total + unit_cost) / max(target, 1)]:
    the script divides by [target or 1], which for a target that is not
    negative is [max(target, 1)], so the division is never by zero. *)
Theorem fallback_when_no_attempt_succeeds ui path (wb_landed_cost : ref)
    (sheet_landed_cost : sheet_ref) w wb s f1 f2 f3 rest v1 v2 :
  (0 ≤ target_sales_per_month ui)%Z →
  heap w !! sheet_landed_cost.1 = Some wb →
  sheets wb !! sheet_landed_cost.2 = Some s →
  not_materialized (value (cell_at s M25)) →
  disk_reads w = Some f1 :: Some f2 :: Some f3 :: rest →
  active_cell_value (workbook_of_file true f1) M25 = Some v1 → not_materialized v1 →
  active_cell_value (workbook_of_file true f2) M25 = Some v2 → not_materialized v2 →
  active_tab f3 < length (file_sheets f3) →
  let expected :=
    float_truediv_int (PrimFloat.add (shipping_total ui) (unit_cost ui))
                      (Z.max (target_sales_per_month ui) 1) in
  expected ≠ Raise ZeroDivisionError
  ∧ ∃ w',
      extract_landed_cost ui path wb_landed_cost sheet_landed_cost w
      = (match expected with
         | Ok x => Ok (VFloat x, length (heap w) + 2)
         | Raise e => Raise e
         end, w').
Proof.
  intros Htarget Hwb Hs Hv0 Hreads Hv1 Hbad1 Hv2 Hbad2 Htab3 expected.
  split; [apply float_truediv_int_nonzero; lia|].
  unfold extract_landed_cost. cbn [seq].
  destruct (attempts_loop_retry 0 [1; 2] path wb_landed_cost sheet_landed_cost VNone
              w _ f1 (Some f2 :: Some f3 :: rest)
              (cell_value_lookup _ M25 _ _ _ Hwb Hs) Hv0 Hreads
              (active_cell_value_tab _ _ _ _ Hv1)) as (tr1 & Hstep1 & _).
  set (w1 := after_load path true f1 _ _) in Hstep1.
  destruct (attempts_loop_retry 1 [2] path (length (heap w)) (length (heap w), active_tab f1)
              (value (cell_at s M25)) w1 v1 f2 (Some f3 :: rest)
              (cell_value_after_load path true f1 _ (with_trace (tr1 ++ trace w) w) M25 v1 Hv1)
              Hbad1 eq_refl
              (active_cell_value_tab _ _ _ _ Hv2)) as (tr2 & Hstep2 & _).
  set (w2 := after_load path true f2 _ _) in Hstep2.
  destruct (attempts_loop_retry 2 [] path (length (heap w1)) (length (heap w1), active_tab f2)
              v1 w2 v2 f3 rest
              (cell_value_after_load path true f2 _ (with_trace (tr2 ++ trace w1) w1) M25 v2 Hv2)
              Hbad2 eq_refl Htab3)
    as (tr3 & Hstep3 & _).
  set (w3 := after_load path true f3 _ _) in Hstep3.
  unfold bind at 1. rewrite Hstep1, Hstep2, Hstep3. cbn [attempts_loop]. unfold ret at 1.
  apply not_materialized_iff in Hbad2. unfold is_valid in Hbad2.
  replace (is_None v2 || isinstance_str v2) with true
    by (destruct (is_None v2), (isinstance_str v2); done).
  unfold fallback_landed_cost. rewrite int_or_1_max by done. fold expected.
  replace (length (heap w2)) with (length (heap w) + 2)
    by (subst w2 w1; cbn; rewrite !length_app; cbn; lia).
  destruct expected as [x|e]; eexists; reflexivity.
Qed.

Lemma fallback_when_no_attempt_succeeds_witness :
  ∃ w',
    extract_landed_cost (sample_widgets 0) "/tmp/tmp1.xlsx" 0 (0, 0)
      (reloaded_world PNone [Some (landed_cost_xlsx (PStr "#REF!"));
                             Some (landed_cost_xlsx PNone);
                             Some (landed_cost_xlsx PNone)])
    = (Ok (VFloat 15, 3), w').
Proof.
  refine (proj2 (fallback_when_no_attempt_succeeds (sample_widgets 0) "/tmp/tmp1.xlsx" 0 (0, 0)
            (reloaded_world PNone [Some (landed_cost_xlsx (PStr "#REF!"));
                                   Some (landed_cost_xlsx PNone);
                                   Some (landed_cost_xlsx PNone)])
            _ _ _ _ _ [] (VStr "#REF!") VNone _ _ _ _ _ _ _ _ _ _)).
  - cbn. lia.
  - reflexivity.
  - reflexivity.
  - left. reflexivity.
  - reflexivity.
  - reflexivity.
  - right. reflexivity.
  - reflexivity.
  - left. reflexivity.
  - cbn. lia.
Defined.

(** ** Sheets changed in place *)





Lemma update_sheet_ext (sr : sheet_ref) f g w :
  (∀ s, f s = g s) → update_sheet sr f w = update_sheet sr g w.
Proof.
  intros H. unfold update_sheet. f_equal. apply list_alter_ext; [|done].
  intros wb _. f_equal. apply list_alter_ext; [|done]. auto.
Qed.

Section MergeProofs.

Variable assign_title : list string → string → string.










End MergeProofs.

(** ** What a copied sheet holds *)


Lemma style_eta (st : Style) :
  mkStyle (font st) (border st) (fill st) (number_format st) (protection st) (alignment st)
  = st.
Proof. by destruct st. Qed.













(** ** The sheets of the combined workbook *)

Section CombinedSheets.

Variable assign_title : list string → string → string.












End CombinedSheets.

(** ** The merge *)

Section Merge.

Variable assign_title : list string → string → string.






End Merge.


Lemma keep_title_kept requests : titles_kept keep_title requests.
Proof. by intros i t _. Qed.









(** Two documents with a common sheet name, and a library that does not
    hand out a title twice: the populated cell A1 = 2 of
    B's sheet "Data" is in no sheet of the output that is called "Data"
    (the output's "Data" is the copy of A's sheet, B's went to "Data1"). *)
Lemma same_named_sheet_collision :
  ∃ out w',
    merge number_if_taken 0 1 (documents_world (data_workbook 1) (data_workbook 2))
    = (Ok 2, w')
    ∧ heap w' !! 2 = Some out
    ∧ (∃ s, sheets (data_workbook 2) !! 0 = Some s ∧ title s = "Data"
            ∧ cells s !! (1, 1)%positive = Some (mkCell (VInt 2) None))
    ∧ Forall (λ t, title t = "Data" → value (cell_at t (1, 1)%positive) ≠ VInt 2)
             (sheets out).
Proof.
  eexists _, _. split; [vm_compute; reflexivity|]. split; [reflexivity|]. split.
  - eexists. repeat split; reflexivity.
  - vm_compute. repeat constructor; intros; discriminate.
Qed.

(** ** More on the merge *)












(** ** The attempts, for any world *)

Lemma after_reloads_refl path n w : after_reloads path n w w [].
Proof.
  repeat split; try done; cbn; [lia|]. exists []. by rewrite app_nil_r.
Qed.

Lemma engine_outcomes_app t1 t2 :
  engine_outcomes (t1 ++ t2) = engine_outcomes t1 ++ engine_outcomes t2.
Proof. unfold engine_outcomes. apply omap_app. Qed.

Lemma after_reloads_trans path n1 n2 w w1 w2 new1 new2 :
  after_reloads path n1 w w1 new1 → after_reloads path n2 w1 w2 new2 →
  after_reloads path (n1 + n2) w w2 (new2 ++ new1).
Proof.
  intros (Ht1 & Hf1 & Hn1 & Hr1 & [ad1 Hh1] & Hw1 & Hm1)
         (Ht2 & Hf2 & Hn2 & Hr2 & [ad2 Hh2] & Hw2 & Hm2).
  split; [by rewrite Ht2, Ht1, app_assoc|].
  split; [by apply Forall_app|].
  rewrite engine_outcomes_app, length_app.
  split; [lia|]. split; [by rewrite Hr2, Hr1, drop_drop, Nat.add_comm|].
  split; [exists (ad1 ++ ad2); by rewrite Hh2, Hh1, app_assoc|].
  split; congruence.
Qed.

Lemma after_reloads_mono path n n' w w' new :
  n ≤ n' → after_reloads path n w w' new → after_reloads path n' w w' new.
Proof.
  intros Hn (Ht & Hf & Hlen & Hrest). repeat split; try done; try apply Hrest. lia.
Qed.

Lemma cell_value_world (sr : sheet_ref) p w : (cell_value sr p w).2 = w.
Proof.
  unfold cell_value, read_sheet, bind, read_workbook.
  destruct (heap w !! sr.1) as [wb|]; [|done]. cbn.
  by destruct (sheets wb !! sr.2).
Qed.

(** A load from a path either succeeds, with a new workbook on the heap,
    or raises and leaves the heap as it is; either way one outcome of the
    disk is consumed and one engine call is on the trace. *)
Lemma load_from_path_cases path data_only w :
  (∃ f rest, disk_reads w = Some f :: rest
     ∧ load_workbook (FromPath path) data_only w
       = (Ok (length (heap w)), after_load path data_only f rest w))
  ∨ (∃ w', load_workbook (FromPath path) data_only w = (Raise IOError, w')
     ∧ trace w' = EngineLoad (FromPath path) data_only false :: trace w
     ∧ heap w' = heap w ∧ disk_reads w' = drop 1 (disk_reads w)
     ∧ disk_writes w' = disk_writes w ∧ tmp_names w' = tmp_names w).
Proof.
  destruct (disk_reads w) as [|[f|] rest] eqn:Hreads.
  - right. unfold load_workbook, bind, next_disk_read, emit, raise. rewrite Hreads.
    eexists. split; [reflexivity|]. cbn. by rewrite Hreads.
  - left. exists f, rest. split; [done|]. by apply load_from_path.
  - right. unfold load_workbook, bind, next_disk_read, emit, raise. rewrite Hreads.
    eexists. split; [reflexivity|]. cbn. done.
Qed.

(** The loop of attempts: whatever the world, it does nothing but reload
    the temporary file, at most once per attempt, and it never shows the
    fallback warning. *)
Lemma attempts_loop_effects attempts path (wb : ref) (sh : sheet_ref) v w :
  ∃ new,
    after_reloads path (length attempts) w (attempts_loop attempts path wb sh v w).2 new
    ∧ fallback_announced new = false.
Proof.
  revert wb sh v w. induction attempts as [|attempt attempts IH]; intros wb sh v w.
  - exists []. split; [apply after_reloads_refl | done].
  - cbn [attempts_loop]. unfold bind at 1.
    pose proof (cell_value_world sh M25 w) as Hw.
    destruct (cell_value sh M25 w) as [[v1|e] w0]; cbn in Hw; subst w0;
      [|exists []; split; [apply after_reloads_refl | done]].
    destruct (is_valid v1); [exists []; split; [apply after_reloads_refl | done]|].
    unfold bind at 1, logging at 1, emit at 1.
    unfold bind at 1, st_write at 1, emit at 1.
    set (m1 := Log Warning _). set (m2 := StWrite _).
    set (wm := with_trace (m2 :: trace (with_trace (m1 :: trace w) w))
                          (with_trace (m1 :: trace w) w)).
    unfold bind at 1.
    destruct (load_from_path_cases path true wm)
      as [(f & rest & Hreads & ->) | (w' & -> & Ht & Hh & Hr & Hw & Hn)].
    + set (w1 := after_load path true f rest wm).
      assert (H1 : after_reloads path 1 w w1
                     [EngineLoad (FromPath path) true true; m2; m1]).
      { subst w1 wm. repeat split; try done.
        - repeat constructor; done.
        - cbn in *. by rewrite Hreads.
        - by eexists. }
      unfold bind at 1. unfold workbook_active at 1, bind at 1, read_workbook at 1.
      assert (H1' : after_reloads path (length (attempt :: attempts)) w w1
                      [EngineLoad (FromPath path) true true; m2; m1])
        by (eapply after_reloads_mono; [|exact H1]; cbn; lia).
      destruct (heap w1 !! length (heap wm)) as [wb1|];
        [|eexists; split; [exact H1' | done]].
      destruct (decide (active_index wb1 < length (sheets wb1)));
        [|eexists; split; [exact H1' | done]].
      unfold ret at 1.
      destruct (IH (length (heap wm)) (length (heap wm), active_index wb1) v1 w1)
        as (new & Hnew & Hquiet).
      eexists. split; [exact (after_reloads_trans _ _ _ _ _ _ _ _ H1 Hnew)|].
      unfold fallback_announced in *. rewrite existsb_app, Hquiet. done.
    + exists [EngineLoad (FromPath path) true false; m2; m1]. split; [|done].
      cbn [snd]. unfold after_reloads. split_and!.
      * by rewrite Ht.
      * repeat constructor; done.
      * cbn. lia.
      * by rewrite Hr.
      * exists []. by rewrite Hh, app_nil_r.
      * by rewrite Hw.
      * by rewrite Hn.
Qed.

(** A value with which the loop ends and that passes the test was read
    from M25 of the sheet the loop ends with. *)
Lemma attempts_loop_valid attempts path (wb : ref) (sh : sheet_ref) v0 w v wb' sh' w' :
  is_valid v0 = false →
  attempts_loop attempts path wb sh v0 w = (Ok (v, wb', sh'), w') →
  is_valid v = true →
  cell_value sh' M25 w' = (Ok v, w').
Proof.
  revert wb sh v0 w. induction attempts as [|attempt attempts IH];
    intros wb sh v0 w Hv0 Hloop Hv.
  - cbn in Hloop. unfold ret in Hloop. congruence.
  - cbn [attempts_loop] in Hloop.
    apply bind_Ok_inv in Hloop as (v1 & w1 & Hread & Hloop).
    pose proof (cell_value_world sh M25 w) as Hw. rewrite Hread in Hw. cbn in Hw. subst w1.
    destruct (is_valid v1) eqn:Hv1.
    + unfold ret in Hloop. congruence.
    + apply bind_Ok_inv in Hloop as (? & ? & _ & Hloop).
      apply bind_Ok_inv in Hloop as (? & ? & _ & Hloop).
      apply bind_Ok_inv in Hloop as (? & ? & _ & Hloop).
      apply bind_Ok_inv in Hloop as (? & ? & _ & Hloop).
      by eapply IH.
Qed.

(** The extractor, whatever the world: it adds nothing to the trace but
    messages and at most three loads, each of them a computed-mode load
    of the temporary file; it consumes one outcome of the disk per load;
    it leaves every workbook that was on the heap in place and touches
    neither the pending saves nor the temporary names. *)
Theorem extract_reloads_at_most_three_times ui path (wb_landed_cost : ref)
    (sheet_landed_cost : sheet_ref) w :
  ∃ new,
    after_reloads path 3 w
      (extract_landed_cost ui path wb_landed_cost sheet_landed_cost w).2 new.
Proof.
  unfold extract_landed_cost. unfold bind at 1.
  destruct (attempts_loop_effects (seq 0 3) path wb_landed_cost sheet_landed_cost VNone w)
    as (new & Hnew & _).
  destruct (attempts_loop _ _ _ _ _ w) as [[[[v wb'] sh']|e] w1]; cbn [snd] in Hnew;
    [|by exists new].
  destruct (is_None v || isinstance_str v); [|by exists new].
  destruct (fallback_landed_cost ui) as [x|e]; [|by exists new].
  eexists (_ :: _ :: new). cbn.
  destruct Hnew as (Ht & Hf & Hrest). unfold after_reloads. cbn.
  split; [by rewrite Ht|]. split; [by repeat constructor|]. exact Hrest.
Qed.

(** What the extractor hands on is never [None] and never text.  The
    fallback warning is shown exactly when the value is the one computed
    from the inputs; otherwise the value is what cell M25 of a sheet on
    the heap holds. *)
Theorem extract_landed_cost_result ui path (wb_landed_cost : ref)
    (sheet_landed_cost : sheet_ref) w v wb' w' :
  extract_landed_cost ui path wb_landed_cost sheet_landed_cost w = (Ok (v, wb'), w') →
  is_valid v = true
  ∧ ∃ new, trace w' = new ++ trace w
    ∧ if fallback_announced new
      then ∃ x, fallback_landed_cost ui = Ok x ∧ v = VFloat x
      else ∃ sheet : sheet_ref, cell_value sheet M25 w' = (Ok v, w').
Proof.
  unfold extract_landed_cost. intros Hrun.
  apply bind_Ok_inv in Hrun as ([[v0 wb0] sh0] & w1 & Hloop & Hrun).
  destruct (attempts_loop_effects (seq 0 3) path wb_landed_cost sheet_landed_cost VNone w)
    as (new & (Ht & _) & Hquiet).
  rewrite Hloop in Ht. cbn [snd] in Ht.
  destruct (is_None v0 || isinstance_str v0) eqn:Hbad.
  - destruct (fallback_landed_cost ui) as [x|e]; [|discriminate].
    unfold bind, logging, st_warning, emit, ret in Hrun. injection Hrun as <- <- <-.
    split; [done|]. eexists (_ :: _ :: new). cbn. split; [by rewrite Ht|].
    by exists x.
  - unfold ret in Hrun. injection Hrun as <- <- <-.
    assert (Hvalid : is_valid v0 = true).
    { unfold is_valid. by destruct (is_None v0), (isinstance_str v0). }
    split; [done|]. exists new. split; [done|]. rewrite Hquiet.
    exists sh0.
    eapply (attempts_loop_valid _ _ _ _ VNone); [reflexivity | exact Hloop | exact Hvalid].
Qed.

Lemma extract_landed_cost_result_witness :
  is_valid (VFloat 15) = true
  ∧ ∃ new, trace (reloaded_world (PFloat 15) []) = new ++ trace (reloaded_world (PFloat 15) [])
    ∧ if fallback_announced new
      then ∃ x, fallback_landed_cost (sample_widgets 100) = Ok x ∧ VFloat 15 = VFloat x
      else ∃ sheet : sheet_ref,
          cell_value sheet M25 (reloaded_world (PFloat 15) [])
          = (Ok (VFloat 15), reloaded_world (PFloat 15) []).
Proof.
  apply (extract_landed_cost_result (sample_widgets 100) "/tmp/tmp1.xlsx" 0 (0, 0)
           (reloaded_world (PFloat 15) []) (VFloat 15) 0 (reloaded_world (PFloat 15) [])).
  reflexivity.
Defined.

(** ** [load_excel] and [save_excel] *)

(** [load_excel] makes one attempt to load the path, in formula mode.
    When the disk delivers a file, a new workbook holding that file is on
    the heap and its reference is returned.  When it does not, the
    exception is raised again once the failure has been logged and shown:
    the heap is as before, and the last thing on the trace is the error
    shown to the user. *)
Theorem load_excel_outcome file_path w :
  ∃ w',
    match disk_reads w with
    | Some f :: rest =>
        load_excel file_path w = (Ok (length (heap w)), w')
        ∧ heap w' = heap w ++ [workbook_of_file false f]
        ∧ disk_reads w' = rest
        ∧ engine_outcomes (trace w') = true :: engine_outcomes (trace w)
    | _ =>
        load_excel file_path w = (Raise IOError, w')
        ∧ heap w' = heap w
        ∧ engine_outcomes (trace w') = false :: engine_outcomes (trace w)
        ∧ ∃ m earlier, trace w' = StError m :: earlier
    end.
Proof.
  unfold load_excel, try_except, bind, st_write, logging, st_error, emit,
    load_workbook, bind, next_disk_read, raise, alloc, ret.
  cbn [disk_reads with_trace].
  destruct (disk_reads w) as [|[f|] rest]; cbn; eexists; repeat split; eauto.
Qed.

(** [save_excel] makes one attempt to save the workbook.  It changes no
    workbook and consumes no read.  When the disk accepts the save, the
    workbook as it is at that moment went to [file_path]; when it does
    not, the exception is raised again once the failure has been logged
    and shown to the user. *)
Theorem save_excel_outcome (workbook : ref) file_path w wb :
  heap w !! workbook = Some wb →
  ∃ w',
    heap w' = heap w ∧ disk_reads w' = disk_reads w ∧ tmp_names w' = tmp_names w
    ∧ disk_writes w' = drop 1 (disk_writes w)
    ∧ match disk_writes w with
      | true :: _ =>
          save_excel workbook file_path w = (Ok tt, w')
          ∧ ∃ m1 m2, trace w' = EngineSave wb file_path true :: m2 :: m1 :: trace w
      | _ =>
          save_excel workbook file_path w = (Raise IOError, w')
          ∧ ∃ m1 m2 m3 m4,
              trace w' = StError m4 :: m3 :: EngineSave wb file_path false
                           :: m2 :: m1 :: trace w
      end.
Proof.
  intros Hwb. destruct w as [h reads writes names date draw tr]. cbn in Hwb.
  unfold save_excel, try_except, bind, st_write, logging, st_error, emit,
    workbook_save, bind, read_workbook, next_disk_write, raise, ret.
  cbn. rewrite Hwb.
  destruct writes as [|[|] rest]; cbn; eexists;
    (repeat split; try done); repeat eexists.
Qed.

Lemma save_excel_outcome_witness :
  ∃ w',
    save_excel 0 "/tmp/out.xlsx"
      (mkWorld [data_workbook 1] [] [true] [] (mkDate 2024 3 7) 32 [])
    = (Ok tt, w')
    ∧ heap w' = [data_workbook 1]
    ∧ disk_writes w' = [].
Proof.
  destruct (save_excel_outcome 0 "/tmp/out.xlsx"
              (mkWorld [data_workbook 1] [] [true] [] (mkDate 2024 3 7) 32 [])
              (data_workbook 1) eq_refl)
    as (w' & Hheap & _ & _ & Hwrites & Hrun & _).
  exists w'. split; [exact Hrun|]. split; [exact Hheap|exact Hwrites].
Defined.

(** ** No engine call after a failed one *)

Lemma all_succeeded_failure_is_last outcomes :
  all_succeeded outcomes → failure_is_last outcomes.
Proof. destruct outcomes; [done|]. by intros ?%Forall_cons_1%proj2. Qed.

Lemma failure_is_last_app o2 o1 :
  failure_is_last o2 → all_succeeded o1 → failure_is_last (o2 ++ o1).
Proof.
  destruct o2 as [|ok o2]; cbn.
  - intros _. apply all_succeeded_failure_is_last.
  - intros H2 H1. by apply Forall_app.
Qed.

Lemma silent_stops {A} (m : M A) : silent m → stops_at_failure m.
Proof.
  intros Hm w. exists []. split; [by rewrite Hm|]. split; [done|].
  destruct (m w).1; cbn; [constructor | done].
Qed.

Lemma stops_bind {A B} (m : M A) (k : A → M B) :
  stops_at_failure m → (∀ a, stops_at_failure (k a)) → stops_at_failure (bind m k).
Proof.
  intros Hm Hk w. unfold bind.
  destruct (Hm w) as (new1 & Ht1 & Hd1 & Ho1).
  destruct (m w) as [[a|e] w1]; cbn [fst snd] in *.
  - destruct (Hk a w1) as (new2 & Ht2 & Hd2 & Ho2).
    exists (new2 ++ new1). split; [by rewrite Ht2, Ht1, app_assoc|].
    split; [by apply Forall_app|]. rewrite engine_outcomes_app.
    destruct (k a w1).1.
    + by apply Forall_app.
    + by apply failure_is_last_app.
  - by exists new1.
Qed.

Lemma stops_then_offers {A B} (m : M A) (k : A → M B) :
  stops_at_failure m → (∀ a, stops_at_failure_or_offers (k a)) →
  stops_at_failure_or_offers (bind m k).
Proof.
  intros Hm Hk w. unfold bind.
  destruct (Hm w) as (new1 & Ht1 & Hd1 & Ho1).
  destruct (m w) as [[a|e] w1]; cbn [fst snd] in *.
  - destruct (Hk a w1) as (new2 & Ht2 & Ho2).
    exists (new2 ++ new1). split; [by rewrite Ht2, Ht1, app_assoc|].
    rewrite engine_outcomes_app.
    destruct (k a w1).1.
    + by apply Forall_app.
    + destruct Ho2 as [Ho2 Hd2]. split; [by apply failure_is_last_app|].
      by apply Forall_app.
  - by exists new1.
Qed.

Lemma stops_emit e :
  engine_outcome e = None → is_download e = false → stops_at_failure (emit e).
Proof.
  intros He Hd w. exists [e]. split; [done|]. split; [by constructor|].
  cbn. unfold engine_outcomes. cbn. rewrite He. constructor.
Qed.

Lemma offers_emit e :
  engine_outcome e = None → @stops_at_failure_or_offers unit (emit e).
Proof.
  intros He w. exists [e]. split; [done|].
  cbn. unfold engine_outcomes. cbn. rewrite He. constructor.
Qed.

Lemma stops_ret {A} (a : A) : stops_at_failure (ret a).
Proof. by apply silent_stops. Qed.

Lemma stops_raise {A} e : stops_at_failure (@raise A e).
Proof. by apply silent_stops. Qed.

Lemma stops_for_each {A} (xs : list A) (body : A → M unit) :
  (∀ x, stops_at_failure (body x)) → stops_at_failure (for_each xs body).
Proof.
  intros Hbody. induction xs as [|x xs IH]; cbn [for_each].
  - apply stops_ret.
  - apply stops_bind; [apply Hbody | intros _; exact IH].
Qed.

(** A handler that only reports and raises again keeps the property. *)
Lemma stops_try_except_reraise {A} (m : M A) (handler : exn → M A) :
  stops_at_failure m →
  (∀ e w, ∃ new e',
     handler e w = (Raise e', with_trace (new ++ trace w) w)
     ∧ engine_outcomes new = [] ∧ Forall (λ e, is_download e = false) new) →
  stops_at_failure (try_except m handler).
Proof.
  intros Hm Hh w. unfold try_except.
  destruct (Hm w) as (new1 & Ht1 & Hd1 & Ho1).
  destruct (m w) as [[a|e] w1]; cbn [fst snd] in *; [by exists new1|].
  destruct (Hh e w1) as (new2 & e' & -> & Hq & Hd2). cbn.
  exists (new2 ++ new1). split; [by rewrite Ht1, app_assoc|].
  split; [by apply Forall_app|]. by rewrite engine_outcomes_app, Hq.
Qed.

Lemma silent_bind {A B} (m : M A) (k : A → M B) :
  silent m → (∀ a, silent (k a)) → silent (bind m k).
Proof.
  intros Hm Hk w. unfold bind. specialize (Hm w).
  destruct (m w) as [[a|e] w1]; cbn in *; [|done]. by rewrite Hk.
Qed.

Lemma silent_ret {A} (a : A) : silent (ret a).
Proof. done. Qed.

Lemma silent_raise {A} e : silent (@raise A e).
Proof. done. Qed.

Lemma silent_read_workbook r : silent (read_workbook r).
Proof. intros w. unfold read_workbook. by destruct (heap w !! r). Qed.

Lemma silent_write_workbook r wb : silent (write_workbook r wb).
Proof. done. Qed.

Lemma silent_alloc wb : silent (alloc wb).
Proof. done. Qed.

Create HintDb silent.

#[local] Hint Resolve silent_ret silent_raise silent_read_workbook silent_write_workbook
  silent_alloc : silent.

Ltac silent_steps :=
  repeat first
    [ match goal with |- ∀ _, _ => intro end
    | solve [auto with silent]
    | match goal with
      | |- silent (match ?x with _ => _ end) => destruct x
      | |- silent (if ?x then _ else _) => destruct x
      | |- silent (bind _ _) => apply silent_bind
      end ].

Lemma silent_read_sheet sr : silent (read_sheet sr).
Proof. unfold read_sheet. silent_steps. Qed.

Lemma silent_modify_sheet sr f : silent (modify_sheet sr f).
Proof. unfold modify_sheet. silent_steps. Qed.

Lemma silent_workbook_active r : silent (workbook_active r).
Proof. unfold workbook_active. silent_steps. Qed.

Lemma silent_workbook_remove r ws : silent (workbook_remove r ws).
Proof. unfold workbook_remove. silent_steps. Qed.

Lemma silent_workbook_getitem r name : silent (workbook_getitem r name).
Proof. unfold workbook_getitem. silent_steps. Qed.

Lemma silent_cell_value ws p : silent (cell_value ws p).
Proof. unfold cell_value. silent_steps. apply silent_read_sheet. Qed.

Lemma silent_named_temporary_file suffix : silent (named_temporary_file suffix).
Proof. intros w. unfold named_temporary_file. by destruct (tmp_names w). Qed.

Lemma silent_strftime_Ymd : silent strftime_Ymd.
Proof. done. Qed.

Lemma silent_randint_10_99 : silent randint_10_99.
Proof. done. Qed.

Lemma silent_next_disk_read : silent next_disk_read.
Proof. intros w. unfold next_disk_read. by destruct (disk_reads w). Qed.

Lemma silent_next_disk_write : silent next_disk_write.
Proof. intros w. unfold next_disk_write. by destruct (disk_writes w). Qed.

Lemma silent_create_sheet assign_title r requested :
  silent (create_sheet assign_title r requested).
Proof. unfold create_sheet. silent_steps. Qed.

#[local] Hint Resolve silent_read_sheet silent_modify_sheet silent_workbook_active
  silent_workbook_remove silent_workbook_getitem silent_cell_value
  silent_named_temporary_file silent_strftime_Ymd silent_randint_10_99
  silent_next_disk_read silent_next_disk_write silent_create_sheet : silent.

Lemma silent_for_each {A} (xs : list A) (body : A → M unit) :
  (∀ x, silent (body x)) → silent (for_each xs body).
Proof.
  intros Hbody. induction xs as [|x xs IH]; cbn [for_each]; [done|].
  apply silent_bind; [apply Hbody | intros _; exact IH].
Qed.

Lemma silent_copy_cell target_sheet cell : silent (copy_cell target_sheet cell).
Proof. unfold copy_cell. silent_steps. Qed.

Lemma silent_copy_sheet assign_title (a c : ref) name :
  silent (copy_sheet assign_title a c name).
Proof.
  unfold copy_sheet. silent_steps.
  apply silent_for_each. intros row. apply silent_for_each. intros cell.
  apply silent_copy_cell.
Qed.

(** One engine call, and an exception when it fails. *)
Lemma stops_load_workbook src data_only : stops_at_failure (load_workbook src data_only).
Proof.
  intros w. unfold load_workbook, bind.
  assert (Hcases : ∃ o w0, (match src with
                            | FromUpload Corrupt => ret None
                            | FromUpload (Xlsx f) => ret (Some f)
                            | FromPath _ => next_disk_read
                            end) w = (Ok o, w0) ∧ trace w0 = trace w).
  { destruct src as [[|f]|path]; [by eexists _, _ ..|].
    unfold next_disk_read. destruct (disk_reads w); by eexists _, _. }
  destruct Hcases as (o & w0 & -> & Ht). destruct o as [f|].
  - exists [EngineLoad src data_only true]. cbn. rewrite Ht.
    split; [done|]. split; [by constructor|]. by repeat constructor.
  - exists [EngineLoad src data_only false]. cbn. rewrite Ht.
    split; [done|]. split; [by constructor|]. by repeat constructor.
Qed.

Lemma stops_workbook_save (workbook : ref) path : stops_at_failure (workbook_save workbook path).
Proof.
  intros w. unfold workbook_save, bind, read_workbook.
  destruct (heap w !! workbook) as [wb|]; [|exists []; cbn; by repeat split].
  unfold next_disk_write.
  destruct (disk_writes w) as [|[|] rest]; cbn;
    eexists [_]; (split; [reflexivity|]); (split; [by constructor|]); by repeat constructor.
Qed.

Create HintDb stops.

#[local] Hint Resolve stops_ret stops_raise stops_load_workbook stops_workbook_save : stops.

Ltac stops_steps :=
  repeat first
    [ match goal with |- ∀ _, _ => intro end
    | solve [auto with stops]
    | solve [apply silent_stops; auto with silent]
    | apply stops_emit; reflexivity
    | match goal with
      | |- stops_at_failure (match ?x with _ => _ end) => destruct x
      | |- stops_at_failure (if ?x then _ else _) => destruct x
      | |- stops_at_failure (let '(_, _) := ?x in _) => destruct x
      | |- stops_at_failure (bind _ _) => apply stops_bind
      | |- stops_at_failure (for_each _ _) => apply stops_for_each
      end ].

Lemma reports_and_raises (m1 m2 : list piece) e w :
  ∃ new e',
    (logging Error m1;; st_error m2;; raise e) w
    = (@Raise unit e', with_trace (new ++ trace w) w)
    ∧ engine_outcomes new = [] ∧ Forall (λ e, is_download e = false) new.
Proof.
  exists [StError m2; Log Error m1], e. split; [done|]. split; [done|].
  by repeat constructor.
Qed.

Lemma stops_save_excel (workbook : ref) file_path :
  stops_at_failure (save_excel workbook file_path).
Proof.
  unfold save_excel. apply stops_try_except_reraise.
  - unfold st_write, logging. stops_steps.
  - intros e w. apply reports_and_raises.
Qed.

Lemma stops_load_excel file_path : stops_at_failure (load_excel file_path).
Proof.
  unfold load_excel. apply stops_try_except_reraise.
  - unfold st_write, logging. stops_steps.
  - intros e w.
    exists [StError [Lit "Failed to load workbook from "; Lit file_path;
                     Lit ". Check the file path and try again."];
            Log Error [Lit "Failed to load workbook from "; Lit file_path; Lit ": ";
                       ExnVal e]], e.
    split; [done|]. split; [done|]. by repeat constructor.
Qed.

Lemma stops_attempts_loop attempts path (wb : ref) (sh : sheet_ref) v :
  stops_at_failure (attempts_loop attempts path wb sh v).
Proof.
  revert wb sh v. induction attempts as [|attempt attempts IH]; intros wb sh v;
    cbn [attempts_loop]; unfold logging, st_write; stops_steps.
Qed.

Lemma stops_extract_landed_cost ui path (wb : ref) (sh : sheet_ref) :
  stops_at_failure (extract_landed_cost ui path wb sh).
Proof.
  unfold extract_landed_cost. apply stops_bind; [apply stops_attempts_loop|].
  intros [[v wb'] sh']. unfold logging, st_warning. stops_steps.
Qed.

Lemma stops_copy_sheets assign_title what (a c : ref) :
  stops_at_failure (copy_sheets assign_title what a c).
Proof.
  unfold copy_sheets, st_write, logging. stops_steps.
  apply silent_stops, silent_copy_sheet.
Qed.

Lemma stops_merge assign_title (a b : ref) : stops_at_failure (merge assign_title a b).
Proof.
  unfold merge, new_workbook. stops_steps; apply stops_copy_sheets.
Qed.

#[local] Hint Resolve stops_save_excel stops_extract_landed_cost stops_merge : stops.

(** The body of the [try] block: no engine call after a failed one, and
    a download is offered only when the body runs to its end. *)
Lemma offers_calculate_and_update assign_title ui (a : ref) (sa : sheet_ref)
    (b : ref) (sb : sheet_ref) :
  stops_at_failure_or_offers (calculate_and_update assign_title ui a sa b sb).
Proof.
  unfold calculate_and_update, st_write, logging, st_success.
  repeat first
    [ apply offers_emit; reflexivity
    | apply stops_then_offers; [stops_steps|intros ?]
    | match goal with
      | |- stops_at_failure_or_offers (let '(_, _) := ?x in _) => destruct x
      end ].
Qed.

Lemma all_succeeded_head outcomes :
  all_succeeded outcomes → head outcomes ≠ Some false.
Proof. destruct outcomes as [|[|] ?]; [done..|]. by intros [? _]%Forall_cons_1. Qed.

Lemma head_app_succeeded (o2 o1 : list bool) :
  all_succeeded o1 → head (o2 ++ o1) = Some false → head o2 = Some false.
Proof.
  destruct o2; [|done]. intros H1 H. by apply all_succeeded_head in H1.
Qed.

Lemma ends_in_error_app new2 new1 : ends_in_error new2 → ends_in_error (new2 ++ new1).
Proof. intros (m & older & ->). by exists m, (older ++ new1). Qed.

(** Something that made none but successful engine calls, followed by a
    run that reports failures. *)
Lemma reports_after_success {A B} (m : M A) (k : A → M B) :
  (∀ w, ∃ new, trace (m w).2 = new ++ trace w
        ∧ Forall (λ e, is_download e = false) new
        ∧ all_succeeded (engine_outcomes new)) →
  (∀ a, reports_failure (k a)) →
  reports_failure (bind m k).
Proof.
  intros Hm Hk w. unfold bind.
  destruct (Hm w) as (new1 & Ht1 & Hd1 & Ho1).
  destruct (m w) as [[a|e] w1]; cbn [fst snd] in *.
  - destruct (Hk a w1) as (new2 & Ht2 & Ho2 & Herr).
    exists (new2 ++ new1). split; [by rewrite Ht2, Ht1, app_assoc|].
    rewrite engine_outcomes_app. split; [by apply failure_is_last_app|].
    intros Hhead%head_app_succeeded; [|done]. destruct (Herr Hhead) as [He Hd2].
    split; [by apply ends_in_error_app | by apply Forall_app].
  - exists new1. split; [done|]. split; [by apply all_succeeded_failure_is_last|].
    by intros ?%all_succeeded_head.
Qed.

Lemma reports_after_emit {B} e (k : M B) :
  engine_outcome e = None → is_download e = false →
  reports_failure k → reports_failure (emit e;; k).
Proof.
  intros He Hd Hk. apply reports_after_success; [|done].
  intros w. exists [e]. split; [done|]. split; [by constructor|].
  unfold engine_outcomes. cbn. rewrite He. constructor.
Qed.

Lemma reports_after_silent {A B} (m : M A) (k : A → M B) :
  silent m → (∀ a, reports_failure (k a)) → reports_failure (bind m k).
Proof.
  intros Hm Hk. apply reports_after_success; [|done].
  intros w. exists []. split; [by rewrite Hm|]. split; constructor.
Qed.

Lemma reports_emit e :
  engine_outcome e = None → @reports_failure unit (emit e).
Proof.
  intros He w. exists [e]. split; [done|]. unfold engine_outcomes. cbn. rewrite He.
  split; done.
Qed.

Lemma reports_ret {A} (a : A) : reports_failure (ret a).
Proof. intros w. exists []. by repeat split. Qed.

(** The [try] block of lines 96-201. *)
Lemma reports_try_block assign_title ui (a : ref) (sa : sheet_ref) (b : ref) (sb : sheet_ref) :
  reports_failure
    (try_except (calculate_and_update assign_title ui a sa b sb)
       (λ e,
        logging Error [Lit "Error during calculation and update process: "; ExnVal e];;
        st_error [Lit "An error occurred during the calculation and update process. Check the log file for details."])).
Proof.
  intros w. unfold try_except.
  destruct (offers_calculate_and_update assign_title ui a sa b sb w) as (new & Ht & Ho).
  destruct (calculate_and_update assign_title ui a sa b sb w) as [[[]|e] w1];
    cbn [fst snd] in *.
  - exists new. split; [done|]. split; [by apply all_succeeded_failure_is_last|].
    by intros ?%all_succeeded_head.
  - destruct Ho as [Ho Hd]. eexists (_ :: _ :: new). cbn. split; [by rewrite Ht|].
    split; [done|]. intros _. split; [by eexists _, _|]. by repeat constructor.
Qed.

Lemma reports_collect_and_run assign_title ui (a b : ref) :
  reports_failure (collect_and_run assign_title ui a b).
Proof.
  unfold collect_and_run.
  apply reports_after_silent; [apply silent_workbook_active|]. intros sa.
  apply reports_after_silent; [apply silent_workbook_active|]. intros sb.
  destruct (negb _).
  - unfold st_error, logging. apply reports_after_emit; [done..|]. by apply reports_emit.
  - unfold logging at 1, st_write at 1.
    apply reports_after_emit; [done..|]. apply reports_after_emit; [done..|].
    destruct (button ui); [|apply reports_ret].
    unfold logging at 1, st_write at 1.
    apply reports_after_emit; [done..|]. apply reports_after_emit; [done..|].
    apply reports_try_block.
Qed.

(** Lines 60-66: either both uploads are loaded, or the failure to load
    one of them has just been shown to the user. *)
Lemma load_uploads_outcome landed_cost_file profit_calc_file w :
  ∃ new,
    trace (load_uploads landed_cost_file profit_calc_file w).2 = new ++ trace w
    ∧ Forall (λ e, is_download e = false) new
    ∧ match (load_uploads landed_cost_file profit_calc_file w).1 with
      | Ok (Some _) => all_succeeded (engine_outcomes new)
      | Ok None => failure_is_last (engine_outcomes new) ∧ ends_in_error new
      | Raise _ => False
      end.
Proof.
  unfold load_uploads, try_except.
  set (body := bind _ _).
  assert (Hbody : stops_at_failure body) by (subst body; stops_steps).
  assert (Hsome : ∀ r w1, body w = (Ok r, w1) → is_Some r).
  { subst body. intros r w1 H.
    apply bind_Ok_inv in H as (? & ? & _ & H). apply bind_Ok_inv in H as (? & ? & _ & H).
    unfold ret in H. injection H as <- _. done. }
  destruct (Hbody w) as (new & Ht & Hd & Ho).
  destruct (body w) as [[r|e] w1] eqn:E; cbn [fst snd] in *.
  - destruct (Hsome r w1 eq_refl) as [x ->]. by exists new.
  - eexists (_ :: _ :: new). cbn. split; [by rewrite Ht|].
    split; [by repeat constructor|]. split; [done|]. by eexists _, _.
Qed.

(** However a run of the script goes, no engine call (load or save)
    follows one that failed: a failure is not retried and nothing is
    loaded or saved after it.  And when the most recent engine call
    failed, the last thing the run did was to show an error to the user,
    and it offered no download. *)
Theorem engine_failure_ends_the_run assign_title ui w :
  ∃ new,
    trace (main assign_title ui w).2 = new ++ trace w
    ∧ failure_is_last (engine_outcomes new)
    ∧ (head (engine_outcomes new) = Some false →
       ends_in_error new ∧ Forall (λ e, is_download e = false) new).
Proof.
  revert w. change (reports_failure (main assign_title ui)).
  unfold main, st_title, logging at 1.
  apply reports_after_emit; [done..|]. apply reports_after_emit; [done..|].
  destruct (negb _).
  { unfold st_warning, logging. apply reports_after_emit; [done..|]. by apply reports_emit. }
  unfold st_write at 1, logging at 1, st_write at 1.
  do 3 (apply reports_after_emit; [done..|]).
  destruct (landed_cost_file ui) as [lf|], (profit_calc_file ui) as [pf|];
    try (unfold st_warning; by apply reports_emit).
  intros w. unfold bind at 1.
  destruct (load_uploads_outcome lf pf w) as (new1 & Ht1 & Hd1 & Ho1).
  destruct (load_uploads lf pf w) as [[[[a b]|]|e] w1]; cbn [fst snd] in *; [| |done].
  - assert (Hrest : reports_failure
      (let! names_a := (let! wb := read_workbook a in ret (sheetnames wb)) in
       let! names_b := (let! wb := read_workbook b in ret (sheetnames wb)) in
       match names_a, names_b with
       | _ :: _, _ :: _ => collect_and_run assign_title ui a b
       | _, _ =>
           st_error [Lit "Failed to load one or both Excel files. Please check the file paths and try again."];;
           logging Error [Lit "Failed to load one or both Excel files. No sheetnames found."]
       end)).
    { apply reports_after_silent; [silent_steps|]. intros names_a.
      apply reports_after_silent; [silent_steps|]. intros names_b.
      assert (Hnone : reports_failure
        (st_error [Lit "Failed to load one or both Excel files. Please check the file paths and try again."];;
         logging Error [Lit "Failed to load one or both Excel files. No sheetnames found."])).
      { unfold st_error, logging. apply reports_after_emit; [done..|]. by apply reports_emit. }
      destruct names_a, names_b; try exact Hnone. apply reports_collect_and_run. }
    destruct (Hrest w1) as (new2 & Ht2 & Ho2 & Herr).
    exists (new2 ++ new1). split; [by rewrite Ht2, Ht1, app_assoc|].
    rewrite engine_outcomes_app. split; [by apply failure_is_last_app|].
    intros Hhead%head_app_succeeded; [|done]. destruct (Herr Hhead) as [He Hd2].
    split; [by apply ends_in_error_app | by apply Forall_app].
  - destruct Ho1 as [Ho1 He1]. exists new1. by repeat split.
Qed.

(** ** Runs that do not start *)

Lemma inert_unchanged {A} (m : M A) : (∀ w, (m w).2 = w) → inert m.
Proof.
  intros Hm w. exists [], []. rewrite Hm, app_nil_r. by repeat split.
Qed.

Lemma inert_bind {A B} (m : M A) (k : A → M B) :
  inert m → (∀ a, inert (k a)) → inert (bind m k).
Proof.
  intros Hm Hk w. unfold bind.
  destruct (Hm w) as (new1 & ad1 & Ht1 & Hh1 & Hp1 & Hf1 & Hr1 & Hw1 & Hn1).
  destruct (m w) as [[a|e] w1]; cbn [fst snd] in *; [|by exists new1, ad1].
  destruct (Hk a w1) as (new2 & ad2 & Ht2 & Hh2 & Hp2 & Hf2 & Hr2 & Hw2 & Hn2).
  exists (new2 ++ new1), (ad1 ++ ad2).
  split; [by rewrite Ht2, Ht1, app_assoc|]. split; [by apply Forall_app|].
  split; [by rewrite Hp2, Hp1, app_assoc|]. split; [by apply Forall_app|].
  split; [congruence|]. split; congruence.
Qed.

Lemma inert_try_except {A} (m : M A) (handler : exn → M A) :
  inert m → (∀ e, inert (handler e)) → inert (try_except m handler).
Proof.
  intros Hm Hh w. unfold try_except.
  destruct (Hm w) as (new1 & ad1 & Ht1 & Hh1 & Hp1 & Hf1 & Hr1 & Hw1 & Hn1).
  destruct (m w) as [[a|e] w1]; cbn [fst snd] in *; [by exists new1, ad1|].
  destruct (Hh e w1) as (new2 & ad2 & Ht2 & Hh2 & Hp2 & Hf2 & Hr2 & Hw2 & Hn2).
  exists (new2 ++ new1), (ad1 ++ ad2).
  split; [by rewrite Ht2, Ht1, app_assoc|]. split; [by apply Forall_app|].
  split; [by rewrite Hp2, Hp1, app_assoc|]. split; [by apply Forall_app|].
  split; [congruence|]. split; congruence.
Qed.

Lemma inert_emit e : harmless e → inert (emit e).
Proof.
  intros He w. exists [e], []. cbn. rewrite app_nil_r. by repeat split; try constructor.
Qed.

Lemma inert_ret {A} (a : A) : inert (ret a).
Proof. by apply inert_unchanged. Qed.

Lemma inert_raise {A} e : inert (@raise A e).
Proof. by apply inert_unchanged. Qed.

Lemma inert_read_workbook r : inert (read_workbook r).
Proof.
  apply inert_unchanged. intros w. unfold read_workbook. by destruct (heap w !! r).
Qed.

Lemma inert_workbook_active r : inert (workbook_active r).
Proof.
  unfold workbook_active. apply inert_bind; [apply inert_read_workbook|].
  intros wb. destruct (decide _); [apply inert_ret | apply inert_raise].
Qed.

Lemma inert_load_upload u : inert (load_workbook (FromUpload u) false).
Proof.
  intros w. destruct u as [|f].
  - exists [EngineLoad (FromUpload Corrupt) false false], []. cbn. rewrite app_nil_r.
    by repeat split; try constructor.
  - exists [EngineLoad (FromUpload (Xlsx f)) false true], [workbook_of_file false f]. cbn.
    repeat split; try done; repeat constructor. by exists f.
Qed.

Create HintDb inert.

#[local] Hint Resolve inert_ret inert_raise inert_read_workbook inert_workbook_active
  inert_load_upload : inert.

Ltac inert_steps :=
  repeat first
    [ match goal with |- ∀ _, _ => intro end
    | solve [auto with inert]
    | apply inert_emit; exact I
    | match goal with
      | |- inert (bind _ _) => apply inert_bind
      | |- inert (try_except _ _) => apply inert_try_except
      end ].

Lemma inert_load_uploads landed_cost_file profit_calc_file :
  inert (load_uploads landed_cost_file profit_calc_file).
Proof. unfold load_uploads, logging, st_error. inert_steps. Qed.

Lemma inert_collect_and_run assign_title ui (a b : ref) :
  all_fields_filled ui = false ∨ button ui = false →
  inert (collect_and_run assign_title ui a b).
Proof.
  intros Hstop. unfold collect_and_run.
  apply inert_bind; [apply inert_workbook_active|]. intros sa.
  apply inert_bind; [apply inert_workbook_active|]. intros sb.
  change (truthy_float (shipping_total ui) && truthy_float (unit_cost ui)
          && truthy_int (target_sales_per_month ui) && truthy_float (selling_price ui)
          && truthy_float (fulfillment_fee ui) && truthy_float (storage_cost ui))
    with (all_fields_filled ui).
  unfold st_error, logging, st_write.
  destruct (all_fields_filled ui); cbn [negb]; [|inert_steps].
  destruct Hstop as [? | ->]; [done|]. inert_steps.
Qed.

(** Unless a keyword is entered, both files are uploaded, all six number
    inputs are non-zero and the button is pressed, a run of the script
    changes no workbook, saves nothing, reloads nothing from the disk,
    creates no temporary file and offers no download: all it does is
    show messages and, at most, load the uploads in formula mode. *)
Theorem run_does_not_start assign_title ui :
  ¬ run_starts ui → inert (main assign_title ui).
Proof.
  intros Hstop. unfold main, st_title, logging, st_warning, st_write, st_error.
  apply inert_bind; [inert_steps|]. intros _.
  apply inert_bind; [inert_steps|]. intros _.
  destruct (truthy_str (keyword_name ui)) eqn:Hkey; cbn [negb]; [|inert_steps].
  apply bool_decide_eq_true in Hkey.
  do 3 (apply inert_bind; [inert_steps|]; intros _).
  destruct (landed_cost_file ui) as [lf|] eqn:Hlf; [|inert_steps].
  destruct (profit_calc_file ui) as [pf|] eqn:Hpf; [|inert_steps].
  apply inert_bind; [apply inert_load_uploads|]. intros [[a b]|]; [|inert_steps].
  apply inert_bind; [inert_steps|]. intros names_a.
  apply inert_bind; [inert_steps|]. intros names_b.
  destruct names_a, names_b; try solve [inert_steps].
  apply inert_collect_and_run.
  destruct (all_fields_filled ui) eqn:Hfilled; [|by left].
  destruct (button ui) eqn:Hbutton; [|by right].
  exfalso. apply Hstop. unfold run_starts. rewrite Hlf, Hpf. by repeat split.
Qed.

Lemma zero_target_not_filled ui :
  target_sales_per_month ui = 0%Z → all_fields_filled ui = false.
Proof.
  intros H. unfold all_fields_filled. rewrite H. cbn.
  by rewrite !andb_false_r.
Qed.

Lemma run_does_not_start_witness :
  inert (main keep_title (sample_widgets 0)).
Proof.
  apply run_does_not_start. intros (_ & _ & _ & Hfilled & _).
  vm_compute in Hfilled. discriminate.
Defined.

(** ** A run that goes through *)

(** What each step of a run that returned must have done. *)

























(** Running forward: each step that succeeds, with the world it leaves. *)











Lemma load_upload_Ok f data_only w :
  load_workbook (FromUpload (Xlsx f)) data_only w
  = (Ok (length (heap w)),
     with_heap (heap w ++ [workbook_of_file data_only f])
       (with_trace (EngineLoad (FromUpload (Xlsx f)) data_only true :: trace w) w)).
Proof. reflexivity. Qed.






(** ** The inputs, as written *)

(** The positions the script's addresses name. *)
Example addresses_of_the_script :
  coordinate_from_string <$> ["G17"; "G25"; "M25"; "F33"; "F35"; "F37"; "F39"; "F43"]
  = Some <$> [G17; G25; M25; F33; F35; F37; F39; F43].
Proof. reflexivity. Qed.



(** ** The used range of a copy *)





(** ** Uploads that cannot be used *)

Lemma inert_bind_reachable {A B} (m : M A) (k k' : A → M B) :
  inert m → (∀ w a w', m w = (Ok a, w') → k a w' = k' a w') → (∀ a, inert (k' a)) →
  inert (bind m k).
Proof.
  intros Hm Hk Hk' w.
  destruct (inert_bind m k' Hm Hk' w) as (new & added & H).
  exists new, added. unfold bind in *.
  destruct (m w) as [[a|e] w'] eqn:E; [|done]. by rewrite (Hk w a w' E).
Qed.

Lemma load_uploads_result lf pf w r w' :
  load_uploads lf pf w = (Ok r, w') →
  match r with
  | None => True
  | Some (a, b) =>
      ∃ fa fb, lf = Xlsx fa ∧ pf = Xlsx fb
        ∧ heap w' !! a = Some (workbook_of_file false fa)
        ∧ heap w' !! b = Some (workbook_of_file false fb)
  end.
Proof.
  destruct w as [h rs ws ns date draw tr].
  destruct lf as [|fa], pf as [|fb]; unfold load_uploads, try_except.
  1-3: cbn; intros [= <- _]; done.
  erewrite bind_Ok; [|apply load_upload_Ok]. erewrite bind_Ok; [|apply load_upload_Ok].
  unfold ret. intros [= <- <-]. exists fa, fb. split; [done|]. split; [done|].
  cbn [heap with_heap with_trace length]. rewrite length_app. cbn [length].
  split.
  - by rewrite <- app_assoc, lookup_app_r, Nat.sub_diag by lia.
  - by rewrite lookup_app_r, length_app, Nat.sub_diag by (rewrite length_app; cbn; lia).
Qed.

(** When one of the two uploads cannot be read, or has no sheet, the
    run stops after the loads, whatever the other inputs are and whether
    or not the button is pressed: no workbook is changed, nothing is
    saved or reloaded from the disk, no temporary file is created and no
    download is offered. *)
Theorem unusable_upload_stops_the_run assign_title ui lf pf :
  landed_cost_file ui = Some lf → profit_calc_file ui = Some pf →
  unusable lf ∨ unusable pf →
  inert (main assign_title ui).
Proof.
  intros Hlf Hpf Hbad. unfold main, st_title, logging, st_warning, st_write, st_error.
  apply inert_bind; [inert_steps|]. intros _.
  apply inert_bind; [inert_steps|]. intros _.
  destruct (truthy_str (keyword_name ui)); cbn [negb]; [|inert_steps].
  do 3 (apply inert_bind; [inert_steps|]; intros _).
  rewrite Hlf, Hpf.
  apply inert_bind_reachable with
    (k' := λ loaded : option (ref * ref),
       match loaded with
       | None => ret tt
       | Some _ =>
           emit (StError [Lit "Failed to load one or both Excel files. Please check the file paths and try again."]);;
           emit (Log Error [Lit "Failed to load one or both Excel files. No sheetnames found."])
       end).
  - apply inert_load_uploads.
  - intros w [[a b]|] w' Hload; [|done].
    apply load_uploads_result in Hload as (fa & fb & -> & -> & Ha & Hb).
    erewrite bind_Ok; [|unfold bind, read_workbook, ret; rewrite Ha; reflexivity].
    erewrite bind_Ok; [|unfold bind, read_workbook, ret; rewrite Hb; reflexivity].
    unfold sheetnames, workbook_of_file. cbn [sheets].
    destruct Hbad as [Hbad | Hbad]; cbn in Hbad; rewrite Hbad; cbn [fmap list_fmap]; [done|].
    by destruct (load_sheet false <$> file_sheets fa).
  - intros [?|]; cbv beta iota; inert_steps.
Qed.

Lemma unusable_upload_stops_the_run_witness :
  inert (main keep_title corrupt_upload_widgets).
Proof.
  apply (unusable_upload_stops_the_run keep_title corrupt_upload_widgets
           Corrupt (Xlsx profit_calc_xlsx)).
  - reflexivity.
  - reflexivity.
  - left. exact I.
Defined.
